(** * prac2/main.py: the dependency graph of an environment's packages

    The script runs [pipdeptree --json], parses the answer and walks the
    resulting forest of packages, emitting one graph node per visited
    package and one edge per parent/child pair into a graphviz [Digraph],
    which it finally renders as [dependencies.png].

    The embedding below follows the script function by function.

    - A value produced by [json.loads] is a [json]; a Python [dict] is kept
      as an association list in insertion order, because iterating a dict
      yields its keys in that order.
    - A Python exception is an [Err]; nothing in the script catches one, so
      an [Err] ends the computation it occurs in.
    - The [Digraph] object is the list of statements appended to its body,
      threaded through the walk as explicit state.
    - [subprocess.run], [json.loads] and the builtin [str] are not part of
      the script: they are variables of the sections that use them.

    [add_nodes_edges] and [create_dependency_graph] describe the walk and
    the call of [render] it leads to, with no bound on the nesting.  The
    recursion limit of the interpreter and the exceptions of the renderer
    are in [add_nodes_edges_within] and [create_dependency_graph_within].
    Memory is not modelled. *)

From Stdlib Require Import List String Ascii Bool ZArith Arith Lia.
Import ListNotations.
Open Scope string_scope.

Set Warnings "-register-all".
Set Default Goal Selector "!".
Set Default Proof Using "Type".

(** ** Python values and exceptions *)

(** What [json.loads] can return.  A float is carried by its [repr]. *)
Inductive json : Type :=
| JNull
| JBool (b : bool)
| JInt (z : Z)
| JFloat (repr : string)
| JStr (s : string)
| JList (items : list json)
| JDict (entries : list (string * json)).

(** The exceptions the script can meet.  [Raised] stands for whatever an
    external call (the subprocess, the JSON parser) raises. *)
Inductive exn : Type :=
| KeyError (key : string)
| TypeError
| AttributeError
| Raised (what : string).

Inductive result (A : Type) : Type :=
| Ok (a : A)
| Err (e : exn).

Arguments Ok {A} a.
Arguments Err {A} e.

Definition bind {A B : Type} (m : result A) (k : A -> result B) : result B :=
  match m with
  | Ok a => k a
  | Err e => Err e
  end.

Notation "x <- m ;; k" := (bind m (fun x => k))
  (at level 61, m at next level, right associativity).

Definition is_ok {A : Type} (m : result A) : bool :=
  match m with Ok _ => true | Err _ => false end.

(** [for x in items: s = f(x, s)], stopping at the first exception. *)
Definition for_each {A S : Type} (f : A -> S -> result S)
  : list A -> S -> result S :=
  fix loop (items : list A) (s : S) : result S :=
    match items with
    | [] => Ok s
    | x :: rest => s' <- f x s ;; loop rest s'
    end.

(** ** Python builtins used by the script *)

Definition newline : string := String (ascii_of_nat 10) EmptyString.

(** Lookup of a key in the entries of a dict. *)
Fixpoint dict_lookup (key : string) (entries : list (string * json))
  : option json :=
  match entries with
  | [] => None
  | (k, v) :: rest => if String.eqb k key then Some v else dict_lookup key rest
  end.

(** The same lookup with the two outcomes as continuations: this is the form
    a structural recursion on [json] can go through. *)
Definition dict_case {A : Type} (key : string) (absent : A) (present : json -> A)
  : list (string * json) -> A :=
  fix scan (entries : list (string * json)) : A :=
    match entries with
    | [] => absent
    | (k, v) :: rest => if String.eqb k key then present v else scan rest
    end.

Definition dict_get (entries : list (string * json)) (key : string)
  (default : json) : json :=
  match dict_lookup key entries with
  | Some v => v
  | None => default
  end.

(** [obj.get(key, default)]: only a dict has the method. *)
Definition py_get (obj : json) (key : string) (default : json) : result json :=
  match obj with
  | JDict entries => Ok (dict_get entries key default)
  | _ => Err AttributeError
  end.

(** [obj[key]] for a string key: a dict answers or raises [KeyError]; a list
    or a str wants integer indices, the other values are not subscriptable. *)
Definition py_getitem (obj : json) (key : string) : result json :=
  match obj with
  | JDict entries =>
      match dict_lookup key entries with
      | Some v => Ok v
      | None => Err (KeyError key)
      end
  | _ => Err TypeError
  end.

Definition py_chars (s : string) : list json :=
  map (fun c => JStr (String c EmptyString)) (list_ascii_of_string s).

Definition py_keys (entries : list (string * json)) : list json :=
  map (fun kv => JStr (fst kv)) entries.

(** The items a [for] loop gets from a value: the elements of a list, the
    characters of a str, the keys of a dict; the rest is not iterable. *)
Definition py_iter (v : json) : result (list json) :=
  match v with
  | JList items => Ok items
  | JStr s => Ok (py_chars s)
  | JDict entries => Ok (py_keys entries)
  | _ => Err TypeError
  end.

(** Truth value of [if v:]. *)
Definition py_truthy (v : json) : bool :=
  match v with
  | JNull => false
  | JBool b => b
  | JInt z => negb (Z.eqb z 0)
  | JFloat r => negb (String.eqb r "0.0" || String.eqb r "-0.0")
  | JStr s => negb (String.eqb s "")
  | JList items => match items with [] => false | _ => true end
  | JDict entries => match entries with [] => false | _ => true end
  end.

(** ** The graphviz [Digraph] object *)

Inductive stmt : Type :=
| SNode (name label : string)
| SEdge (tail head : string).

Record Digraph : Type := mkDigraph {
  format : string;
  body : list stmt
}.

Definition Digraph_new (fmt : string) : Digraph :=
  {| format := fmt; body := [] |}.

Definition append (dot : Digraph) (s : stmt) : Digraph :=
  {| format := format dot; body := body dot ++ [s] |}.

(** [dot.node(name, label)].  The library quotes the name with a regular
    expression match, which raises [TypeError] on anything but a str. *)
Definition node (name : json) (label : string) (dot : Digraph) : result Digraph :=
  match name with
  | JStr n => Ok (append dot (SNode n label))
  | _ => Err TypeError
  end.

(** [dot.edge(tail_name, head_name)], with the same requirement on names. *)
Definition edge (tail head : json) (dot : Digraph) : result Digraph :=
  match tail, head with
  | JStr t, JStr h => Ok (append dot (SEdge t h))
  | _, _ => Err TypeError
  end.

(** A call of [dot.render(filename, view=...)]: the graph it is made on and
    its arguments. *)
Record render_call : Type := mkRender {
  rendered : Digraph;
  filename : string;
  view : bool
}.

Definition render (dot : Digraph) (file : string) (v : bool) : render_call :=
  {| rendered := dot; filename := file; view := v |}.

(** The result of [subprocess.run]. *)
Record CompletedProcess : Type := mkCompleted {
  args : list string;
  returncode : Z;
  stdout : string;
  stderr : string
}.

(** An instance of the builtin [str] for the examples.  It is exact on
    [None], the booleans, the floats and the strs; the examples format
    nothing else. *)
Definition str_of_scalar (v : json) : string :=
  match v with
  | JNull => "None"
  | JBool true => "True"
  | JBool false => "False"
  | JFloat r => r
  | JStr s => s
  | _ => ""
  end.

(** ** Sample forests *)

Definition package (name version : string) : json :=
  JDict [("key", JStr name); ("package_name", JStr name);
         ("installed_version", JStr version)].

(** The shape [pipdeptree --json] prints: the fields of a top-level package
    under [package], those of a dependency in the node itself. *)
Definition sample_forest : json :=
  JList
    [JDict [("package", package "flask" "3.0.0");
            ("dependencies",
             JList [JDict [("key", JStr "click");
                           ("package_name", JStr "click");
                           ("installed_version", JStr "8.1.7");
                           ("required_version", JStr ">=8.1.3")]])];
     JDict [("package", package "click" "8.1.8");
            ("dependencies", JList [])]].

(** A package of empty name with one sub-dependency. *)
Definition empty_name_forest : json :=
  JList
    [JDict [("package_name", JStr "");
            ("installed_version", JStr "1");
            ("dependencies",
             JList [JDict [("package_name", JStr "b");
                           ("installed_version", JStr "2")]])]].

(** A node without any key. *)
Definition keyless_forest : json := JList [JDict []].

(** A node that has the two keys and an empty [package] besides. *)
Definition shadowed_forest : json :=
  JList [JDict [("package", JDict []);
                ("package_name", JStr "a");
                ("installed_version", JStr "1")]].

(** A node that has the two keys under [package] only. *)
Definition nested_forest : json :=
  JList [JDict [("package", package "a" "1")]].

Section Script.

(** The builtin [str] on the values that are not already a str. *)
Variable py_str : json -> string.

(** [subprocess.run(argv, capture_output=...)]: the process that ran, or the
    exception raised when it could not be started. *)
Variable subprocess_run : list string -> bool -> result CompletedProcess.

(** [json.loads] on the bytes of a document. *)
Variable json_loads : string -> result json.

(** *** [get_pipdeptree_output] *)

(** The function returns a value or raises; the first component lists the
    subprocess invocations it made, as (argv, capture_output). *)
Definition get_pipdeptree_output : list (list string * bool) * result json :=
  let argv := ["pipdeptree"; "--json"] in
  ([(argv, true)],
   result0 <- subprocess_run argv true ;;
   json_loads (stdout result0)).

(** What an f-string puts in place of [{v}]. *)
Definition py_format (v : json) : string :=
  match v with
  | JStr s => s
  | _ => py_str v
  end.

(** *** [add_nodes_edges] *)

Fixpoint add_nodes_edges (dep : json) (parent : json) (dot : Digraph)
  {struct dep} : result Digraph :=
  match dep with
  | JDict entries =>
      let data := dict_get entries "package" dep in
      package_name <- py_getitem data "package_name" ;;
      package_version <- py_getitem data "installed_version" ;;
      let node_label :=
        py_format package_name ++ newline ++ py_format package_version in
      dot <- node package_name node_label dot ;;
      dot <- (if py_truthy parent then edge parent package_name dot else Ok dot) ;;
      dict_case "dependencies"
        (Ok dot)
        (fun deps =>
           match deps with
           | JList subs =>
               for_each (fun sub_dep => add_nodes_edges sub_dep package_name)
                        subs dot
           | _ =>
               (* the items of a str or of a dict are strs, and a str has
                  no [get] *)
               subs <- py_iter deps ;;
               for_each (fun _ _ => Err AttributeError) subs dot
           end)
        entries
  | _ => Err AttributeError
  end.

(** The body of the function as the script has it, the recursive call being
    [self]. *)
Definition add_nodes_edges_body
  (self : json -> json -> Digraph -> result Digraph)
  (dep : json) (parent : json) (dot : Digraph) : result Digraph :=
  data <- py_get dep "package" dep ;;
  package_name <- py_getitem data "package_name" ;;
  package_version <- py_getitem data "installed_version" ;;
  let node_label :=
    py_format package_name ++ newline ++ py_format package_version in
  dot <- node package_name node_label dot ;;
  dot <- (if py_truthy parent then edge parent package_name dot else Ok dot) ;;
  deps <- py_get dep "dependencies" (JList []) ;;
  subs <- py_iter deps ;;
  for_each (fun sub_dep => self sub_dep package_name) subs dot.

(** *** [create_dependency_graph] *)

Definition create_dependency_graph (dependencies : json) : result render_call :=
  let dot := Digraph_new "png" in
  items <- py_iter dependencies ;;
  dot <- for_each (fun dependency => add_nodes_edges dependency JNull) items dot ;;
  Ok (render dot "dependencies" false).

(** *** [main] *)

Definition main : list (list string * bool) * result render_call :=
  let (invoked, output) := get_pipdeptree_output in
  (invoked,
   dependencies <- output ;;
   create_dependency_graph dependencies).

(** ** The dependency forest of a value *)

(** The dictionary the package fields are read from. *)
Definition package_data (dep : json) : result json :=
  py_get dep "package" dep.

Definition name_of (dep : json) : result json :=
  data <- package_data dep ;; py_getitem data "package_name".

Definition version_of (dep : json) : result json :=
  data <- package_data dep ;; py_getitem data "installed_version".

(** The items the loop over [dep.get("dependencies", [])] runs through. *)
Definition children (dep : json) : result (list json) :=
  deps <- py_get dep "dependencies" (JList []) ;; py_iter deps.

Definition deps_of (dep : json) : list json :=
  match children dep with
  | Ok subs => subs
  | Err _ => []
  end.

(** The nodes of the tree under [dep], parents before children, children
    from left to right. *)
Fixpoint tree_nodes (dep : json) : list json :=
  dep ::
  match dep with
  | JDict entries =>
      dict_case "dependencies" []
        (fun deps =>
           match deps with
           | JList subs => flat_map tree_nodes subs
           | _ => match py_iter deps with Ok subs => subs | Err _ => [] end
           end)
        entries
  | _ => []
  end.

Definition forest_nodes (dependencies : json) : list json :=
  match py_iter dependencies with
  | Ok items => flat_map tree_nodes items
  | Err _ => []
  end.

(** The statements of a graph body, by kind. *)
Definition nodes_in (stmts : list stmt) : list (string * string) :=
  flat_map (fun s => match s with SNode n l => [(n, l)] | SEdge _ _ => [] end)
           stmts.

Definition edges_in (stmts : list stmt) : list (string * string) :=
  flat_map (fun s => match s with SEdge t h => [(t, h)] | SNode _ _ => [] end)
           stmts.

(** The label of the node of a package. *)
Definition label_of (name : string) (version : json) : string :=
  name ++ newline ++ py_format version.

(** The node statement [nl] is the one the walk emits for the tree node
    [dep]: identifier and label come from the package fields of [dep]. *)
Definition node_for (dep : json) (nl : string * string) : Prop :=
  exists version,
    name_of dep = Ok (JStr (fst nl)) /\
    version_of dep = Ok version /\
    snd nl = label_of (fst nl) version.

(** The pair [ab] names a package of the forest and one of its
    sub-dependencies. *)
Definition tree_edge (dependencies : json) (ab : string * string) : Prop :=
  exists p c,
    In p (forest_nodes dependencies) /\ In c (deps_of p) /\
    name_of p = Ok (JStr (fst ab)) /\ name_of c = Ok (JStr (snd ab)).

(** The shape under which the walk raises nothing: the package fields are
    present where the walk reads them, the name is a str, and the
    dependencies, when present, are a list of nodes of that shape. *)
Definition has_package_fields (data : json) : bool :=
  match data with
  | JDict fields =>
      match dict_lookup "package_name" fields with
      | Some (JStr _) => true
      | _ => false
      end
      && match dict_lookup "installed_version" fields with
         | Some _ => true
         | None => false
         end
  | _ => false
  end.

Fixpoint well_formed (dep : json) : bool :=
  match dep with
  | JDict entries =>
      has_package_fields (dict_get entries "package" dep)
      && dict_case "dependencies" true
           (fun deps =>
              match deps with
              | JList subs => forallb well_formed subs
              | _ => false
              end)
           entries
  | _ => false
  end.

(** The shape as the informal precondition words it: every node is itself a
    dictionary with the keys [package_name] and [installed_version], and its
    [dependencies], when present, are a list of such nodes. *)
Fixpoint carries_keys (dep : json) : bool :=
  match dep with
  | JDict entries =>
      match dict_lookup "package_name" entries with
      | Some _ => true
      | None => false
      end
      && match dict_lookup "installed_version" entries with
         | Some _ => true
         | None => false
         end
      && dict_case "dependencies" true
           (fun deps =>
              match deps with
              | JList subs => forallb carries_keys subs
              | _ => false
              end)
           entries
  | _ => false
  end.

(** Size of a value, the measure the walk decreases on. *)
Fixpoint json_size (v : json) : nat :=
  match v with
  | JList items => S (list_sum (map json_size items))
  | JDict entries =>
      S (list_sum (map (fun kv => let '(_, x) := kv in json_size x) entries))
  | _ => 1
  end.

(** The edge statements the walk emits on entering a node called [name]
    from [parent]. *)
Definition parent_edge (parent : json) (name : string) : list stmt :=
  match parent with
  | JStr p => if String.eqb p "" then [] else [SEdge p name]
  | _ => []
  end.

(** The pair [ab] joins [parent] to the root [dep]. *)
Definition root_edge (parent dep : json) (ab : string * string) : Prop :=
  parent = JStr (fst ab) /\ fst ab <> "" /\ name_of dep = Ok (JStr (snd ab)).

(** The pair [ab] joins a node under [dep], of a name that is not empty, to
    one of its children. *)
Definition edge_under (dep : json) (ab : string * string) : Prop :=
  exists p c,
    In p (tree_nodes dep) /\ In c (deps_of p) /\
    name_of p = Ok (JStr (fst ab)) /\ fst ab <> "" /\
    name_of c = Ok (JStr (snd ab)).

(** What the walk of the tree under [dep], entered from [parent], has
    appended: one node statement per tree node, in the order of
    [tree_nodes], and the edges into the root and under it. *)
Definition emits (dep parent : json) (new : list stmt) : Prop :=
  Forall2 node_for (tree_nodes dep) (nodes_in new) /\
  forall ab, In ab (edges_in new) <-> root_edge parent dep ab \/ edge_under dep ab.

(** The nodes of a graph: the identifiers its node statements name, each
    counted once. *)
Definition graph_nodes (dot : Digraph) : list string :=
  nodup string_dec (map fst (nodes_in (body dot))).

(** The walk of the whole forest, as [create_dependency_graph] runs it. *)
Definition walk_forest (items : list json) : result Digraph :=
  for_each (fun dependency => add_nodes_edges dependency JNull) items
           (Digraph_new "png").

(** The body of [add_nodes_edges] once [data] has been chosen. *)
Definition add_nodes_edges_from (data dep parent : json) (dot : Digraph)
  : result Digraph :=
  package_name <- py_getitem data "package_name" ;;
  package_version <- py_getitem data "installed_version" ;;
  let node_label :=
    py_format package_name ++ newline ++ py_format package_version in
  dot <- node package_name node_label dot ;;
  dot <- (if py_truthy parent then edge parent package_name dot else Ok dot) ;;
  deps <- py_get dep "dependencies" (JList []) ;;
  subs <- py_iter deps ;;
  for_each (fun sub_dep => add_nodes_edges sub_dep package_name) subs dot.

(** The graph [dot] with the statements [new] appended. *)
Definition extend (dot : Digraph) (new : list stmt) : Digraph :=
  {| format := format dot; body := body dot ++ new |}.

(** An outcome that is the same on every graph: an exception, or statements
    to append. *)
Definition emitting (r : result (list stmt)) (dot : Digraph) : result Digraph :=
  match r with
  | Ok new => Ok (extend dot new)
  | Err e => Err e
  end.

(** A node the walk gets through: its package data give a str name and a
    version, and its dependencies can be iterated. *)
Definition walkable (dep : json) : Prop :=
  exists name version subs,
    name_of dep = Ok (JStr name) /\
    version_of dep = Ok version /\
    children dep = Ok subs.

(** A body made of node statements, each followed by at most one edge
    statement, which then points to that node. *)
Inductive node_blocks : list stmt -> Prop :=
| blocks_nil : node_blocks []
| blocks_node (n l : string) (rest : list stmt) :
    node_blocks rest -> node_blocks (SNode n l :: rest)
| blocks_node_edge (n l t : string) (rest : list stmt) :
    node_blocks rest -> node_blocks (SNode n l :: SEdge t n :: rest).

(** The count kept along a walk: as many edges as nodes, less one for the
    root, plus the edge into the root. *)
Definition edge_count (dep parent : json) (new : list stmt) : Prop :=
  exists name,
    name_of dep = Ok (JStr name) /\
    ((forall p, In p (tree_nodes dep) -> deps_of p <> [] ->
                name_of p <> Ok (JStr "")) ->
     List.length (edges_in new) + 1
     = List.length (tree_nodes dep) + List.length (parent_edge parent name)).

(** ** The limits of the interpreter and of the renderer *)

(** [dot.render(filename, view=...)] itself: it writes the source, runs the
    layout program and returns the path of the image, or raises. *)
Variable dot_render : Digraph -> string -> bool -> result string.

(** The exception of a call the interpreter has no frame left for. *)
Definition RecursionError : exn := Raised "RecursionError".

(** [add_nodes_edges] under the recursion limit: [frames] is the number of
    nested calls of the function the interpreter can still hold, the calls
    each makes into the libraries included; a call made when none is left
    raises [RecursionError]. *)
Fixpoint add_nodes_edges_within (frames : nat) (dep parent : json)
  (dot : Digraph) : result Digraph :=
  match frames with
  | 0 => Err RecursionError
  | S rest_frames =>
      add_nodes_edges_body (add_nodes_edges_within rest_frames) dep parent dot
  end.

(** The loop of [create_dependency_graph] under the limit. *)
Definition walk_forest_within (frames : nat) (items : list json)
  : result Digraph :=
  for_each (fun dependency => add_nodes_edges_within frames dependency JNull)
           items (Digraph_new "png").

(** [create_dependency_graph] under the limit and with the renderer: the
    calls of [dot.render] it has made, and how it ends. *)
Definition create_dependency_graph_within (frames : nat) (dependencies : json)
  : list render_call * result unit :=
  match (items <- py_iter dependencies ;; walk_forest_within frames items) with
  | Ok dot =>
      ([render dot "dependencies" false],
       _ <- dot_render dot "dependencies" false ;; Ok tt)
  | Err e => ([], Err e)
  end.

(** The number of nested calls the walk of the tree under [dep] makes. *)
Fixpoint tree_height (dep : json) : nat :=
  S match dep with
    | JDict entries =>
        dict_case "dependencies" 0
          (fun deps =>
             match deps with
             | JList subs => list_max (map tree_height subs)
             | _ => match py_iter deps with
                    | Ok (_ :: _) => 1
                    | _ => 0
                    end
             end)
          entries
    | _ => 0
    end.

Definition forest_height (dependencies : json) : nat :=
  match py_iter dependencies with
  | Ok items => list_max (map tree_height items)
  | Err _ => 0
  end.

(** The outcome [limited] is the outcome [unlimited] cut short by the
    recursion limit, if at all. *)
Definition cut_short {A : Type} (limited unlimited : result A) : Prop :=
  limited = Err RecursionError \/ limited = unlimited.

(** ** Loops and lookups *)

Lemma dict_case_lookup {A : Type} (key : string) (absent : A)
  (present : json -> A) (entries : list (string * json)) :
  dict_case key absent present entries =
  match dict_lookup key entries with
  | Some v => present v
  | None => absent
  end.
Proof.
  induction entries as [|[k v] rest IH]; simpl.
  - reflexivity.
  - destruct (String.eqb k key); [reflexivity | exact IH].
Qed.

Lemma for_each_ext_in {A S : Type} (f g : A -> S -> result S) (items : list A) :
  (forall x, In x items -> forall s, f x s = g x s) ->
  forall s, for_each f items s = for_each g items s.
Proof.
  induction items as [|x rest IH]; intros Hfg s; simpl.
  - reflexivity.
  - rewrite (Hfg x (or_introl eq_refl)).
    destruct (g x s) as [s'|e]; simpl; [|reflexivity].
    apply IH. intros y Hy. apply Hfg. right. exact Hy.
Qed.

Lemma nodes_in_app (l1 l2 : list stmt) :
  nodes_in (l1 ++ l2) = (nodes_in l1 ++ nodes_in l2)%list.
Proof. apply flat_map_app. Qed.

Lemma edges_in_app (l1 l2 : list stmt) :
  edges_in (l1 ++ l2) = (edges_in l1 ++ edges_in l2)%list.
Proof. apply flat_map_app. Qed.

Lemma nodes_in_node (n l : string) (rest : list stmt) :
  nodes_in (SNode n l :: rest) = (n, l) :: nodes_in rest.
Proof. reflexivity. Qed.

Lemma edges_in_node (n l : string) (rest : list stmt) :
  edges_in (SNode n l :: rest) = edges_in rest.
Proof. reflexivity. Qed.

Lemma nodes_in_parent_edge (parent : json) (name : string) :
  nodes_in (parent_edge parent name) = [].
Proof.
  destruct parent; try reflexivity. simpl.
  destruct (String.eqb s ""); reflexivity.
Qed.

Lemma py_chars_not_dict (s : string) (x : json) :
  In x (py_chars s) -> exists c, x = JStr c.
Proof.
  unfold py_chars. rewrite in_map_iff. intros [c [Hc _]].
  eexists. symmetry. exact Hc.
Qed.

Lemma py_keys_not_dict (entries : list (string * json)) (x : json) :
  In x (py_keys entries) -> exists c, x = JStr c.
Proof.
  unfold py_keys. rewrite in_map_iff. intros [kv [Hkv _]].
  eexists. symmetry. exact Hkv.
Qed.

(** Iterating anything but a list yields strs only. *)
Lemma py_iter_strs (v : json) (subs : list json) :
  (forall items, v <> JList items) -> py_iter v = Ok subs ->
  forall x, In x subs -> exists c, x = JStr c.
Proof.
  intros Hv Hiter x Hx. destruct v; simpl in Hiter; try discriminate.
  - injection Hiter as <-. eapply py_chars_not_dict; eassumption.
  - exfalso. eapply Hv. reflexivity.
  - injection Hiter as <-. eapply py_keys_not_dict; eassumption.
Qed.

(** ** The equations of the walk *)

(** [add_nodes_edges] is the function the script defines: it satisfies the
    equation of its body. *)
Lemma add_nodes_edges_eq (dep parent : json) (dot : Digraph) :
  add_nodes_edges dep parent dot =
  add_nodes_edges_body add_nodes_edges dep parent dot.
Proof.
  destruct dep; try reflexivity.
  unfold add_nodes_edges_body.
  cbn [add_nodes_edges py_get bind].
  destruct (py_getitem (dict_get entries "package" (JDict entries)) "package_name")
    as [package_name|e]; [|reflexivity].
  cbn [bind].
  destruct (py_getitem (dict_get entries "package" (JDict entries)) "installed_version")
    as [package_version|e]; [|reflexivity].
  cbn [bind].
  destruct (node package_name _ dot) as [dot1|e]; [|reflexivity].
  cbn [bind].
  destruct (if py_truthy parent then edge parent package_name dot1 else Ok dot1)
    as [dot2|e]; [|reflexivity].
  cbn [bind].
  rewrite dict_case_lookup. unfold dict_get.
  destruct (dict_lookup "dependencies" entries) as [deps|]; [|reflexivity].
  destruct deps; try reflexivity.
  - cbn [py_iter bind]. apply for_each_ext_in.
    intros x Hx st. apply py_chars_not_dict in Hx as [c ->]. reflexivity.
  - cbn [py_iter bind]. apply for_each_ext_in.
    intros x Hx st. apply py_keys_not_dict in Hx as [c ->]. reflexivity.
Qed.

(** The same equation with the reads named as in the forest. *)
Lemma add_nodes_edges_unfold (dep parent : json) (dot : Digraph) :
  add_nodes_edges dep parent dot =
  (name <- name_of dep ;;
   version <- version_of dep ;;
   dot1 <- node name (py_format name ++ newline ++ py_format version) dot ;;
   dot2 <- (if py_truthy parent then edge parent name dot1 else Ok dot1) ;;
   subs <- children dep ;;
   for_each (fun sub_dep => add_nodes_edges sub_dep name) subs dot2).
Proof.
  rewrite add_nodes_edges_eq.
  unfold add_nodes_edges_body, name_of, version_of, package_data, children.
  destruct dep; reflexivity.
Qed.

Lemma flat_map_tree_nodes_strs (items : list json) :
  (forall x, In x items -> exists c, x = JStr c) ->
  flat_map tree_nodes items = items.
Proof.
  induction items as [|x rest IH]; intros Hstr; simpl.
  - reflexivity.
  - destruct (Hstr x (or_introl eq_refl)) as [c ->]. simpl.
    f_equal. apply IH. intros y Hy. apply Hstr. right. exact Hy.
Qed.

(** The tree under a node is the node followed by the trees under its
    children. *)
Lemma tree_nodes_eq (dep : json) :
  tree_nodes dep = dep :: flat_map tree_nodes (deps_of dep).
Proof.
  destruct dep; try reflexivity.
  cbn [tree_nodes]. f_equal.
  rewrite dict_case_lookup.
  unfold deps_of, children. cbn [py_get bind]. unfold dict_get.
  destruct (dict_lookup "dependencies" entries) as [deps|]; [|reflexivity].
  destruct deps; try reflexivity; cbn [py_iter bind]; symmetry;
    apply flat_map_tree_nodes_strs; intros x Hx.
  - eapply py_chars_not_dict; eassumption.
  - eapply py_keys_not_dict; eassumption.
Qed.

(** ** The walk is well-founded *)

Lemma json_size_pos (v : json) : 1 <= json_size v.
Proof. destruct v; simpl; lia. Qed.

Lemma json_size_item (items : list json) (c : json) :
  In c items -> json_size c <= list_sum (map json_size items).
Proof.
  induction items as [|x rest IH]; simpl; intros Hin.
  - contradiction.
  - destruct Hin as [->|Hin]; [lia|]. specialize (IH Hin). lia.
Qed.

Lemma json_size_entry (key : string) (entries : list (string * json)) (v : json) :
  dict_lookup key entries = Some v ->
  json_size v <=
  list_sum (map (fun kv => let '(_, x) := kv in json_size x) entries).
Proof.
  induction entries as [|[k x] rest IH]; simpl; intros Hlook.
  - discriminate.
  - destruct (String.eqb k key).
    + injection Hlook as ->. lia.
    + specialize (IH Hlook). lia.
Qed.

(** Every child is a smaller value than its parent. *)
Lemma deps_of_smaller (dep c : json) :
  In c (deps_of dep) -> json_size c < json_size dep.
Proof.
  unfold deps_of, children.
  destruct dep; cbn [py_get bind]; try contradiction.
  unfold dict_get.
  destruct (dict_lookup "dependencies" entries) as [deps|] eqn:Hlook;
    [|contradiction].
  apply json_size_entry in Hlook. cbn [json_size].
  destruct deps; cbn [py_iter]; try contradiction; intros Hin.
  - apply py_chars_not_dict in Hin as [ch ->]. simpl in *. lia.
  - apply json_size_item in Hin. simpl in Hlook. lia.
  - apply py_keys_not_dict in Hin as [ch ->].
    pose proof (json_size_pos (JDict entries0)). simpl in *. lia.
Qed.

(** Induction along the dependency trees: a property that holds of a node
    whenever it holds of its children holds of every value. *)
Lemma deps_of_ind (P : json -> Prop) :
  (forall dep, (forall c, In c (deps_of dep) -> P c) -> P dep) ->
  forall dep, P dep.
Proof.
  intros Hstep dep.
  remember (json_size dep) as n eqn:Hn.
  revert dep Hn.
  induction n as [n IH] using lt_wf_ind.
  intros dep ->. apply Hstep. intros c Hc.
  apply (IH (json_size c)); [apply deps_of_smaller; exact Hc | reflexivity].
Qed.

(** ** What a completed walk has done *)

(** The guarded call of [dot.edge]: when it returns, it has appended
    [parent_edge]. *)
Lemma guarded_edge_ok (parent : json) (name : string) (dot1 dot2 : Digraph) :
  (if py_truthy parent then edge parent (JStr name) dot1 else Ok dot1) = Ok dot2 ->
  format dot2 = format dot1 /\
  body dot2 = (body dot1 ++ parent_edge parent name)%list.
Proof.
  destruct parent as [|b|z|r|p|items|entries]; simpl.
  - intros [= <-]. rewrite app_nil_r. split; reflexivity.
  - destruct b; [discriminate|]. intros [= <-]. rewrite app_nil_r. split; reflexivity.
  - destruct (Z.eqb z 0); simpl; [|discriminate].
    intros [= <-]. rewrite app_nil_r. split; reflexivity.
  - destruct (String.eqb r "0.0" || String.eqb r "-0.0")%bool; simpl;
      [|discriminate].
    intros [= <-]. rewrite app_nil_r. split; reflexivity.
  - destruct (String.eqb p ""); simpl; intros [= <-]; simpl.
    + rewrite app_nil_r. split; reflexivity.
    + split; reflexivity.
  - destruct items; [|discriminate]. intros [= <-]. rewrite app_nil_r. split; reflexivity.
  - destruct entries; [|discriminate]. intros [= <-]. rewrite app_nil_r. split; reflexivity.
Qed.

(** One call that returns has read a str name and a version, appended the
    node and, under a truthy parent, the edge, and then walked the children
    in order. *)
Lemma add_nodes_edges_ok (dep parent : json) (dot dot' : Digraph) :
  add_nodes_edges dep parent dot = Ok dot' ->
  exists name version dot1,
    name_of dep = Ok (JStr name) /\
    version_of dep = Ok version /\
    children dep = Ok (deps_of dep) /\
    format dot1 = format dot /\
    body dot1 =
      (body dot ++ SNode name (label_of name version)
                   :: parent_edge parent name)%list /\
    for_each (fun sub_dep => add_nodes_edges sub_dep (JStr name))
             (deps_of dep) dot1 = Ok dot'.
Proof.
  rewrite add_nodes_edges_unfold. unfold deps_of.
  destruct (name_of dep) as [name|e]; [|discriminate].
  destruct (version_of dep) as [version|e]; [|discriminate].
  cbn [bind].
  destruct name as [| | | |name| |]; try discriminate.
  cbn [node bind py_format].
  set (dot1 := append dot _).
  destruct (if py_truthy parent then edge parent (JStr name) dot1 else Ok dot1)
    as [dot2|e] eqn:Hedge; [|discriminate].
  cbn [bind].
  destruct (children dep) as [subs|e]; [|discriminate].
  cbn [bind]. intros Hloop.
  apply guarded_edge_ok in Hedge as [Hfmt Hbody].
  exists name, version, dot2. repeat split; try assumption.
  rewrite Hbody. subst dot1. simpl. rewrite <- app_assoc. reflexivity.
Qed.

Lemma for_each_emits (parent : json) (subs : list json) :
  (forall c, In c subs ->
   forall dot dot', add_nodes_edges c parent dot = Ok dot' ->
   exists new,
     format dot' = format dot /\ body dot' = (body dot ++ new)%list /\
     emits c parent new) ->
  forall dot dot',
    for_each (fun sub_dep => add_nodes_edges sub_dep parent) subs dot
    = Ok dot' ->
    exists new,
      format dot' = format dot /\ body dot' = (body dot ++ new)%list /\
      Forall2 node_for (flat_map tree_nodes subs) (nodes_in new) /\
      forall ab,
        In ab (edges_in new) <->
        exists c, In c subs /\ (root_edge parent c ab \/ edge_under c ab).
Proof.
  induction subs as [|c rest IH]; intros Hsubs dot dot' Hloop.
  - injection Hloop as <-. exists []. rewrite app_nil_r.
    repeat split; try constructor.
    + intros [].
    + intros [c [[] _]].
  - cbn [for_each] in Hloop.
    destruct (add_nodes_edges c parent dot) as [mid|e] eqn:Hc;
      [|discriminate].
    cbn [bind] in Hloop.
    destruct (Hsubs c (or_introl eq_refl) _ _ Hc)
      as [new1 [Hf1 [Hb1 [Hn1 He1]]]].
    destruct (IH (fun x Hx => Hsubs x (or_intror Hx)) _ _ Hloop)
      as [new2 [Hf2 [Hb2 [Hn2 He2]]]].
    exists (new1 ++ new2)%list. repeat split.
    + congruence.
    + rewrite Hb2, Hb1, app_assoc. reflexivity.
    + cbn [flat_map]. rewrite nodes_in_app. apply Forall2_app; assumption.
    + rewrite edges_in_app, in_app_iff. intros [Hin|Hin].
      * exists c. split; [left; reflexivity | apply He1; exact Hin].
      * apply He2 in Hin as [x [Hx Hab]]. exists x. split; [right|]; assumption.
    + rewrite edges_in_app, in_app_iff. intros [x [[<-|Hx] Hab]].
      * left. apply He1. exact Hab.
      * right. apply He2. exists x. split; assumption.
Qed.

(** The statements a completed walk has appended. *)
Lemma walk_emits (dep : json) :
  forall parent dot dot',
    add_nodes_edges dep parent dot = Ok dot' ->
    exists new,
      format dot' = format dot /\ body dot' = (body dot ++ new)%list /\
      emits dep parent new.
Proof.
  induction dep as [dep IH] using deps_of_ind.
  intros parent dot dot' Hwalk.
  apply add_nodes_edges_ok in Hwalk
    as [name [version [dot1 [Hname [Hver [_ [Hf1 [Hb1 Hloop]]]]]]]].
  destruct (for_each_emits (JStr name) (deps_of dep)
              (fun c Hc => IH c Hc (JStr name)) _ _ Hloop)
    as [new [Hf [Hb [Hnodes Hedges]]]].
  exists (SNode name (label_of name version)
          :: parent_edge parent name ++ new)%list.
  split; [congruence|]. split.
  { rewrite Hb, Hb1, <- app_assoc. reflexivity. }
  split.
  - rewrite tree_nodes_eq, nodes_in_node, nodes_in_app, nodes_in_parent_edge.
    simpl. constructor; [|exact Hnodes].
    exists version. simpl. repeat split; assumption.
  - intros [a b].
    rewrite edges_in_node, edges_in_app, in_app_iff, Hedges.
    unfold root_edge, edge_under. simpl. split.
    + intros [Hroot | [c [Hc [Hce | Hcu]]]].
      * left. destruct parent; try contradiction. simpl in Hroot.
        destruct (String.eqb s "") eqn:Hs; [contradiction|].
        destruct Hroot as [[= <- <-]|[]].
        repeat split; [|exact Hname]. intros ->. discriminate.
      * right. destruct Hce as [[= <-] [Hne Hcn]].
        exists dep, c. rewrite tree_nodes_eq.
        repeat split; try assumption. left. reflexivity.
      * right. destruct Hcu as [p [c' [Hp Hrest]]].
        exists p, c'. split; [|exact Hrest].
        rewrite tree_nodes_eq. right. apply in_flat_map.
        exists c. split; assumption.
    + intros [[-> [Hne Hb']] | [p [c [Hp [Hc [Hpa [Hne Hcb]]]]]]].
      * left. simpl. rewrite Hname in Hb'. injection Hb' as <-.
        apply String.eqb_neq in Hne. rewrite Hne. left. reflexivity.
      * right. rewrite tree_nodes_eq in Hp. destruct Hp as [<-|Hp].
        -- exists c. split; [exact Hc|]. left.
           rewrite Hname in Hpa. injection Hpa as <-.
           repeat split; assumption.
        -- apply in_flat_map in Hp as [c0 [Hc0 Hp]].
           exists c0. split; [exact Hc0|]. right.
           exists p, c. repeat split; assumption.
Qed.

(** ** The rendered graph *)

Lemma create_dependency_graph_eq (dependencies : json) :
  create_dependency_graph dependencies =
  (items <- py_iter dependencies ;;
   dot <- walk_forest items ;;
   Ok (render dot "dependencies" false)).
Proof. reflexivity. Qed.

Lemma create_dependency_graph_ok (dependencies : json) (rc : render_call) :
  create_dependency_graph dependencies = Ok rc ->
  exists items,
    py_iter dependencies = Ok items /\
    walk_forest items = Ok (rendered rc) /\
    filename rc = "dependencies" /\ view rc = false.
Proof.
  rewrite create_dependency_graph_eq.
  destruct (py_iter dependencies) as [items|e]; [|discriminate].
  cbn [bind].
  destruct (walk_forest items) as [dot|e] eqn:Hwalk; [|discriminate].
  cbn [bind]. intros [= <-]. exists items. simpl. repeat split. exact Hwalk.
Qed.

Lemma Forall2_In_l {A B : Type} (R : A -> B -> Prop) (l1 : list A) (l2 : list B) :
  Forall2 R l1 l2 -> forall x, In x l1 -> exists y, In y l2 /\ R x y.
Proof.
  induction 1 as [|a b l1 l2 Hab _ IH]; intros x Hx.
  - contradiction.
  - destruct Hx as [<-|Hx].
    + exists b. split; [left; reflexivity | exact Hab].
    + destruct (IH x Hx) as [y [Hy Hxy]]. exists y. split; [right|]; assumption.
Qed.

Lemma Forall2_In_r {A B : Type} (R : A -> B -> Prop) (l1 : list A) (l2 : list B) :
  Forall2 R l1 l2 -> forall y, In y l2 -> exists x, In x l1 /\ R x y.
Proof.
  induction 1 as [|a b l1 l2 Hab _ IH]; intros y Hy.
  - contradiction.
  - destruct Hy as [<-|Hy].
    + exists a. split; [left; reflexivity | exact Hab].
    + destruct (IH y Hy) as [x [Hx Hxy]]. exists x. split; [right|]; assumption.
Qed.

(** The children of a node of a tree are nodes of the tree. *)
Lemma tree_nodes_closed (dep : json) :
  forall p c, In p (tree_nodes dep) -> In c (deps_of p) -> In c (tree_nodes dep).
Proof.
  induction dep as [dep IH] using deps_of_ind. intros p c Hp Hc.
  rewrite tree_nodes_eq in *. destruct Hp as [<-|Hp].
  - right. apply in_flat_map. exists c. split; [exact Hc|].
    rewrite tree_nodes_eq. left. reflexivity.
  - right. apply in_flat_map in Hp as [d [Hd Hp]].
    apply in_flat_map. exists d. split; [exact Hd|].
    eapply IH; eassumption.
Qed.

Lemma forest_nodes_closed (dependencies : json) :
  forall p c,
    In p (forest_nodes dependencies) -> In c (deps_of p) ->
    In c (forest_nodes dependencies).
Proof.
  unfold forest_nodes. intros p c Hp Hc.
  destruct (py_iter dependencies) as [items|e]; [|contradiction].
  apply in_flat_map in Hp as [d [Hd Hp]].
  apply in_flat_map. exists d. split; [exact Hd|].
  eapply tree_nodes_closed; eassumption.
Qed.

(** The graph a completed run has rendered: it is a png graph, its node
    statements are those of the nodes of the forest, one each and in the
    order of the walk, and its edge statements join the packages of a name
    that is not empty to their sub-dependencies. *)
Lemma rendered_graph (dependencies : json) (rc : render_call) :
  create_dependency_graph dependencies = Ok rc ->
  format (rendered rc) = "png" /\
  Forall2 node_for (forest_nodes dependencies) (nodes_in (body (rendered rc))) /\
  forall ab,
    In ab (edges_in (body (rendered rc))) <->
    tree_edge dependencies ab /\ fst ab <> "".
Proof.
  intros Hrun.
  apply create_dependency_graph_ok in Hrun as [items [Hiter [Hwalk _]]].
  unfold walk_forest in Hwalk.
  destruct (for_each_emits JNull items
              (fun c _ => walk_emits c JNull) _ _ Hwalk)
    as [new [Hfmt [Hbody [Hnodes Hedges]]]].
  simpl in Hfmt, Hbody. subst new.
  unfold tree_edge, forest_nodes. rewrite Hiter.
  split; [exact Hfmt|]. split; [exact Hnodes|].
  intros ab. rewrite Hedges. split.
  - intros [c [Hc [[Hnull _] | [p [c' [Hp [Hc' [Hpa [Hne Hcb]]]]]]]]];
      [discriminate|].
    split; [|exact Hne].
    exists p, c'. repeat split; try assumption.
    apply in_flat_map. exists c. split; assumption.
  - intros [[p [c [Hp [Hc [Hpa Hcb]]]]] Hne].
    apply in_flat_map in Hp as [d [Hd Hp]].
    exists d. split; [exact Hd|]. right.
    exists p, c. repeat split; assumption.
Qed.

(** ** Well-formed forests are walked to the end *)

Lemma has_package_fields_ok (data : json) :
  has_package_fields data = true ->
  exists name version,
    py_getitem data "package_name" = Ok (JStr name) /\
    py_getitem data "installed_version" = Ok version.
Proof.
  destruct data as [| | | | | |fields]; try discriminate.
  simpl. intros H. apply andb_prop in H as [Hname Hver].
  destruct (dict_lookup "package_name" fields) as [[| | | |name| |]|];
    try discriminate.
  destruct (dict_lookup "installed_version" fields) as [version|];
    try discriminate.
  exists name, version. split; reflexivity.
Qed.

Lemma well_formed_ok (dep : json) :
  well_formed dep = true ->
  exists name version subs,
    name_of dep = Ok (JStr name) /\
    version_of dep = Ok version /\
    children dep = Ok subs /\
    forallb well_formed subs = true.
Proof.
  destruct dep as [| | | | | |entries]; try discriminate.
  cbn [well_formed]. rewrite dict_case_lookup.
  intros H. apply andb_prop in H as [Hdata Hdeps].
  apply has_package_fields_ok in Hdata as [name [version [Hname Hver]]].
  unfold name_of, version_of, package_data, children. cbn [py_get bind].
  unfold dict_get at 3.
  destruct (dict_lookup "dependencies" entries) as [deps|].
  - destruct deps as [| | | | |subs|]; try discriminate.
    exists name, version, subs. repeat split; assumption.
  - exists name, version, []. repeat split; assumption.
Qed.

Lemma for_each_ok {A S : Type} (f : A -> S -> result S) (items : list A) :
  (forall x, In x items -> forall s, exists s', f x s = Ok s') ->
  forall s, exists s', for_each f items s = Ok s'.
Proof.
  induction items as [|x rest IH]; intros Hf s; simpl.
  - exists s. reflexivity.
  - destruct (Hf x (or_introl eq_refl) s) as [s1 ->]. cbn [bind].
    apply IH. intros y Hy. apply Hf. right. exact Hy.
Qed.

(** A well-formed tree, entered from no parent or from a str, is walked
    without an exception. *)
Lemma walk_well_formed (dep : json) :
  well_formed dep = true ->
  forall parent dot,
    (py_truthy parent = true -> exists p, parent = JStr p) ->
    exists dot', add_nodes_edges dep parent dot = Ok dot'.
Proof.
  induction dep as [dep IH] using deps_of_ind.
  intros Hwf parent dot Hparent.
  destruct (well_formed_ok dep Hwf)
    as [name [version [subs [Hname [Hver [Hsubs Hall]]]]]].
  rewrite add_nodes_edges_unfold, Hname, Hver. cbn [bind node].
  set (dot1 := append dot _).
  assert (Hedge : exists dot2,
             (if py_truthy parent then edge parent (JStr name) dot1
              else Ok dot1) = Ok dot2).
  { destruct (py_truthy parent).
    - destruct (Hparent eq_refl) as [p ->]. simpl. eexists. reflexivity.
    - eexists. reflexivity. }
  destruct Hedge as [dot2 ->]. rewrite Hsubs. cbn [bind].
  apply for_each_ok. intros c Hc s.
  apply IH.
  - unfold deps_of. rewrite Hsubs. exact Hc.
  - rewrite forallb_forall in Hall. apply Hall. exact Hc.
  - intros _. exists name. reflexivity.
Qed.

Lemma walk_forest_well_formed (items : list json) :
  forallb well_formed items = true ->
  exists dot, walk_forest items = Ok dot.
Proof.
  intros Hall. unfold walk_forest. apply for_each_ok. intros c Hc s.
  apply walk_well_formed.
  - rewrite forallb_forall in Hall. apply Hall. exact Hc.
  - discriminate.
Qed.

(** When no package of empty name has a sub-dependency, the rendered graph
    is the expected one: its nodes are the names of the packages of the
    forest and its edges join each package to each of its
    sub-dependencies. *)
Lemma rendered_graph_of_named_forest (dependencies : json) (rc : render_call) :
  create_dependency_graph dependencies = Ok rc ->
  (forall p, In p (forest_nodes dependencies) -> deps_of p <> [] ->
             name_of p <> Ok (JStr "")) ->
  (forall name,
     In name (graph_nodes (rendered rc)) <->
     exists dep, In dep (forest_nodes dependencies) /\
                 name_of dep = Ok (JStr name)) /\
  (forall ab,
     In ab (edges_in (body (rendered rc))) <-> tree_edge dependencies ab).
Proof.
  intros Hrun Hnamed.
  apply rendered_graph in Hrun as [_ [Hnodes Hedges]]. split.
  - intros name. unfold graph_nodes. rewrite nodup_In, in_map_iff. split.
    + intros [nl [<- Hnl]].
      destruct (Forall2_In_r _ _ _ Hnodes nl Hnl)
        as [dep [Hdep [version [Hname _]]]].
      exists dep. split; assumption.
    + intros [dep [Hdep Hname]].
      destruct (Forall2_In_l _ _ _ Hnodes dep Hdep)
        as [nl [Hnl [version [Hname' _]]]].
      exists nl. split; [|exact Hnl]. congruence.
  - intros ab. rewrite Hedges. split; [intros [Hedge _]; exact Hedge|].
    intros Hedge. split; [exact Hedge|].
    destruct Hedge as [p [c [Hp [Hc [Hpa _]]]]].
    intros Hempty. apply (Hnamed p Hp).
    + intros Hnil. rewrite Hnil in Hc. contradiction.
    + rewrite Hpa, Hempty. reflexivity.
Qed.

(** ** The properties of the script *)

(** C1.  The graph is meant to have an edge from every package to each of
    its sub-dependencies.  On a package of empty name the walk loses them:
    [empty_name_forest] has the package [""] with the sub-dependency ["b"],
    both nodes are emitted and no edge is. *)
Theorem empty_name_parent_loses_edges :
  exists rc,
    create_dependency_graph empty_name_forest = Ok rc /\
    tree_edge empty_name_forest ("", "b") /\
    map fst (nodes_in (body (rendered rc))) = [""; "b"] /\
    edges_in (body (rendered rc)) = [].
Proof.
  eexists. split; [reflexivity|]. split; [|split; reflexivity].
  unfold tree_edge.
  exists (JDict [("package_name", JStr "");
                 ("installed_version", JStr "1");
                 ("dependencies",
                  JList [JDict [("package_name", JStr "b");
                                ("installed_version", JStr "2")]])]),
         (JDict [("package_name", JStr "b"); ("installed_version", JStr "2")]).
  repeat split; left; reflexivity.
Qed.

(** C2.  In the rendered graph the node statement of every node of the
    forest has the package name as identifier and, as label, the name, a
    newline and the formatted installed version, which is the version itself
    when it is a str. *)
Theorem emitted_node_carries_name_and_version
  (dependencies : json) (rc : render_call) :
  create_dependency_graph dependencies = Ok rc ->
  Forall2
    (fun dep nl =>
       exists version,
         name_of dep = Ok (JStr (fst nl)) /\
         version_of dep = Ok version /\
         snd nl = fst nl ++ newline ++ py_format version /\
         forall v, version = JStr v -> snd nl = fst nl ++ newline ++ v)
    (forest_nodes dependencies) (nodes_in (body (rendered rc))).
Proof.
  intros Hrun. apply rendered_graph in Hrun as [_ [Hnodes _]].
  eapply Forall2_impl; [|exact Hnodes].
  intros dep nl [version [Hname [Hver Hlabel]]].
  exists version. repeat split; try assumption.
  intros v ->. exact Hlabel.
Qed.

(** C3.  [get_pipdeptree_output] starts one process, [pipdeptree --json]
    with its output captured, and returns what [json.loads] makes of the
    captured stdout, the exception of either call otherwise. *)
Theorem get_pipdeptree_output_runs_pipdeptree_json :
  fst get_pipdeptree_output = [(["pipdeptree"; "--json"], true)] /\
  snd get_pipdeptree_output =
  match subprocess_run ["pipdeptree"; "--json"] true with
  | Ok completed => json_loads (stdout completed)
  | Err e => Err e
  end.
Proof. split; reflexivity. Qed.

(** C4, as amended.  Nothing is caught: an exception of [subprocess.run],
    an exception of [json.loads] on the captured stdout, and a node of the
    forest whose package data lack [package_name] or [installed_version]
    each make the function raise. *)
Theorem failures_propagate :
  (forall e,
     subprocess_run ["pipdeptree"; "--json"] true = Err e ->
     snd get_pipdeptree_output = Err e) /\
  (forall completed e,
     subprocess_run ["pipdeptree"; "--json"] true = Ok completed ->
     json_loads (stdout completed) = Err e ->
     snd get_pipdeptree_output = Err e) /\
  (forall dependencies dep fields,
     In dep (forest_nodes dependencies) ->
     package_data dep = Ok (JDict fields) ->
     dict_lookup "package_name" fields = None \/
     dict_lookup "installed_version" fields = None ->
     exists e, create_dependency_graph dependencies = Err e).
Proof.
  split; [|split].
  - intros e Hrun. unfold get_pipdeptree_output. simpl. rewrite Hrun.
    reflexivity.
  - intros completed e Hrun Hloads. unfold get_pipdeptree_output. simpl.
    rewrite Hrun. exact Hloads.
  - intros dependencies dep fields Hin Hdata Hmissing.
    destruct (create_dependency_graph dependencies) as [rc|e] eqn:Hrun;
      [|exists e; reflexivity].
    exfalso.
    apply rendered_graph in Hrun as [_ [Hnodes _]].
    destruct (Forall2_In_l _ _ _ Hnodes dep Hin)
      as [nl [_ [version [Hname [Hver _]]]]].
    unfold name_of, version_of in Hname, Hver.
    rewrite Hdata in Hname, Hver. simpl in Hname, Hver.
    destruct Hmissing as [Hnone|Hnone]; rewrite Hnone in *; discriminate.
Qed.

(** C5, as amended.  On every list [create_dependency_graph] walks all the
    trees first; when the walk has raised nothing it calls [render] on the
    png graph the walk has built, with the file name [dependencies] and
    [view=False], and when the walk raises the exception leaves the function
    before [render].  The empty list is rendered as the empty graph. *)
Theorem render_follows_walk (items : list json) :
  match walk_forest items with
  | Ok dot =>
      create_dependency_graph (JList items)
      = Ok (render dot "dependencies" false) /\
      format dot = "png"
  | Err e => create_dependency_graph (JList items) = Err e
  end /\
  create_dependency_graph (JList [])
  = Ok (render (Digraph_new "png") "dependencies" false).
Proof.
  split; [|reflexivity].
  rewrite create_dependency_graph_eq. cbn [py_iter bind].
  destruct (walk_forest items) as [dot|e] eqn:Hwalk; [|reflexivity].
  split; [reflexivity|].
  unfold walk_forest in Hwalk.
  destruct (for_each_emits JNull items
              (fun c _ => walk_emits c JNull) _ _ Hwalk)
    as [new [Hfmt _]].
  exact Hfmt.
Qed.

(** C7.  The walk is a recursion on the tree: the relation of a child to
    its parent is well-founded, the function satisfies the equation of its
    body, the body calls the function on the children of the node only, and
    a walk that returns has emitted one node statement for each node of the
    tree, in the order of the tree. *)
Theorem walk_well_founded :
  well_founded (fun c p => In c (deps_of p)) /\
  (forall dep parent dot,
     add_nodes_edges dep parent dot
     = add_nodes_edges_body add_nodes_edges dep parent dot) /\
  (forall self1 self2 dep parent dot,
     (forall c, In c (deps_of dep) -> forall p d, self1 c p d = self2 c p d) ->
     add_nodes_edges_body self1 dep parent dot
     = add_nodes_edges_body self2 dep parent dot) /\
  (forall dep parent dot dot',
     add_nodes_edges dep parent dot = Ok dot' ->
     exists new,
       body dot' = (body dot ++ new)%list /\
       Forall2 node_for (tree_nodes dep) (nodes_in new)).
Proof.
  split; [|split; [|split]].
  - intros dep. induction dep as [dep IH] using deps_of_ind.
    constructor. exact IH.
  - exact add_nodes_edges_eq.
  - intros self1 self2 dep parent dot Hself.
    unfold add_nodes_edges_body.
    destruct (py_get dep "package" dep) as [data|e]; [|reflexivity].
    cbn [bind].
    destruct (py_getitem data "package_name") as [name|e]; [|reflexivity].
    cbn [bind].
    destruct (py_getitem data "installed_version") as [version|e];
      [|reflexivity].
    cbn [bind].
    destruct (node name _ dot) as [dot1|e]; [|reflexivity].
    cbn [bind].
    destruct (if py_truthy parent then edge parent name dot1 else Ok dot1)
      as [dot2|e]; [|reflexivity].
    cbn [bind].
    unfold deps_of, children in Hself.
    destruct (py_get dep "dependencies" (JList [])) as [deps|e];
      [|reflexivity].
    cbn [bind] in *.
    destruct (py_iter deps) as [subs|e]; [|reflexivity].
    cbn [bind]. apply for_each_ext_in.
    intros c Hc d. apply Hself. exact Hc.
  - intros dep parent dot dot' Hwalk.
    apply walk_emits in Hwalk as [new [_ [Hbody [Hnodes _]]]].
    exists new. split; assumption.
Qed.

(** C8.  The identifier of a node statement is the package name alone:
    each node of the forest is emitted under its name, whatever its
    version, so the nodes of a name, however many, make one node of the
    rendered graph. *)
Theorem node_identity_is_package_name
  (dependencies : json) (rc : render_call) :
  create_dependency_graph dependencies = Ok rc ->
  Forall2 (fun dep nl => name_of dep = Ok (JStr (fst nl)))
          (forest_nodes dependencies) (nodes_in (body (rendered rc))) /\
  forall dep name,
    In dep (forest_nodes dependencies) ->
    name_of dep = Ok (JStr name) ->
    count_occ string_dec (graph_nodes (rendered rc)) name = 1.
Proof.
  intros Hrun. apply rendered_graph in Hrun as [_ [Hnodes _]].
  assert (Hids : Forall2 (fun dep nl => name_of dep = Ok (JStr (fst nl)))
                   (forest_nodes dependencies)
                   (nodes_in (body (rendered rc)))).
  { eapply Forall2_impl; [|exact Hnodes].
    intros dep nl [version [Hname _]]. exact Hname. }
  split; [exact Hids|].
  intros dep name Hin Hname.
  destruct (Forall2_In_l _ _ _ Hids dep Hin) as [nl [Hnl Hfst]].
  rewrite Hname in Hfst. injection Hfst as ->.
  unfold graph_nodes.
  apply NoDup_count_occ'; [apply NoDup_nodup|].
  apply nodup_In. apply in_map. exact Hnl.
Qed.

(** C9.  The guard [if parent:] is false on the empty str: the rendered
    graph has no edge that leaves the name [""], while every
    sub-dependency of a package of that name has its node statement. *)
Theorem empty_name_drops_edges_keeps_nodes
  (dependencies : json) (rc : render_call) :
  create_dependency_graph dependencies = Ok rc ->
  (forall head, ~ In ("", head) (edges_in (body (rendered rc)))) /\
  (forall p c,
     In p (forest_nodes dependencies) ->
     name_of p = Ok (JStr "") ->
     In c (deps_of p) ->
     exists nl, In nl (nodes_in (body (rendered rc))) /\ node_for c nl).
Proof.
  intros Hrun. apply rendered_graph in Hrun as [_ [Hnodes Hedges]].
  split.
  - intros head Hin. apply Hedges in Hin as [_ Hne]. apply Hne. reflexivity.
  - intros p c Hp _ Hc.
    apply (Forall2_In_l _ _ _ Hnodes).
    eapply forest_nodes_closed; eassumption.
Qed.

(** C10.  A node is read in one of two shapes: with a [package] key the
    name and the version come from the value under it, without one from
    the node itself; and a node of the first shape is walked as the node of
    the second shape that has the same two fields and the same
    dependencies. *)
Theorem two_shapes_walked_alike :
  (forall entries data parent dot,
     dict_lookup "package" entries = Some data ->
     add_nodes_edges (JDict entries) parent dot
     = add_nodes_edges_from data (JDict entries) parent dot) /\
  (forall entries parent dot,
     dict_lookup "package" entries = None ->
     add_nodes_edges (JDict entries) parent dot
     = add_nodes_edges_from (JDict entries) (JDict entries) parent dot) /\
  (forall nested flat fields parent dot,
     dict_lookup "package" nested = Some (JDict fields) ->
     dict_lookup "package" flat = None ->
     dict_lookup "package_name" flat = dict_lookup "package_name" fields ->
     dict_lookup "installed_version" flat
     = dict_lookup "installed_version" fields ->
     dict_lookup "dependencies" flat = dict_lookup "dependencies" nested ->
     add_nodes_edges (JDict nested) parent dot
     = add_nodes_edges (JDict flat) parent dot).
Proof.
  assert (Hsome : forall entries data parent dot,
             dict_lookup "package" entries = Some data ->
             add_nodes_edges (JDict entries) parent dot
             = add_nodes_edges_from data (JDict entries) parent dot).
  { intros entries data parent dot Hlook. rewrite add_nodes_edges_eq.
    unfold add_nodes_edges_body. cbn [py_get bind].
    replace (dict_get entries "package" (JDict entries)) with data
      by (unfold dict_get; rewrite Hlook; reflexivity).
    reflexivity. }
  assert (Hnone : forall entries parent dot,
             dict_lookup "package" entries = None ->
             add_nodes_edges (JDict entries) parent dot
             = add_nodes_edges_from (JDict entries) (JDict entries) parent dot).
  { intros entries parent dot Hlook. rewrite add_nodes_edges_eq.
    unfold add_nodes_edges_body. cbn [py_get bind].
    replace (dict_get entries "package" (JDict entries)) with (JDict entries)
      by (unfold dict_get; rewrite Hlook; reflexivity).
    reflexivity. }
  split; [exact Hsome|]. split; [exact Hnone|].
  intros nested flat fields parent dot Hnested Hflat Hname Hver Hdeps.
  rewrite (Hsome _ _ _ _ Hnested), (Hnone _ _ _ Hflat).
  unfold add_nodes_edges_from, py_getitem, py_get, dict_get.
  rewrite Hname, Hver, Hdeps. reflexivity.
Qed.

(** ** The walk as a writer *)

Lemma extend_nil (dot : Digraph) : extend dot [] = dot.
Proof. destruct dot. unfold extend. simpl. rewrite app_nil_r. reflexivity. Qed.

Lemma extend_extend (dot : Digraph) (a b : list stmt) :
  extend (extend dot a) b = extend dot (a ++ b).
Proof. unfold extend. simpl. rewrite app_assoc. reflexivity. Qed.

Lemma for_each_app {A S : Type} (f : A -> S -> result S) (l1 l2 : list A) :
  forall s, for_each f (l1 ++ l2) s = (s' <- for_each f l1 s ;; for_each f l2 s').
Proof.
  induction l1 as [|x rest IH]; intros s; simpl.
  - reflexivity.
  - destruct (f x s) as [s1|e]; simpl; [apply IH | reflexivity].
Qed.

Lemma for_each_emitting {A : Type} (f : A -> Digraph -> result Digraph)
  (items : list A) :
  (forall x, In x items -> exists r, forall dot, f x dot = emitting r dot) ->
  exists r, forall dot, for_each f items dot = emitting r dot.
Proof.
  induction items as [|x rest IH]; intros Hf.
  - exists (Ok []). intros dot. simpl. rewrite extend_nil. reflexivity.
  - destruct (Hf x (or_introl eq_refl)) as [rx Hx].
    destruct (IH (fun y Hy => Hf y (or_intror Hy))) as [rr Hr].
    destruct rx as [a|e].
    + destruct rr as [b|e].
      * exists (Ok (a ++ b)%list). intros dot. cbn [for_each].
        rewrite Hx. cbn [emitting bind]. rewrite Hr. cbn [emitting].
        rewrite extend_extend. reflexivity.
      * exists (Err e). intros dot. cbn [for_each].
        rewrite Hx. cbn [emitting bind]. rewrite Hr. reflexivity.
    + exists (Err e). intros dot. cbn [for_each]. rewrite Hx. reflexivity.
Qed.

Lemma guarded_edge_emitting (parent : json) (name : string) :
  exists r, forall dot,
    (if py_truthy parent then edge parent (JStr name) dot else Ok dot)
    = emitting r dot.
Proof.
  destruct (py_truthy parent).
  - destruct parent as [| | | |p| |];
      try (exists (Err TypeError); intros dot; reflexivity).
    exists (Ok [SEdge p name]). intros dot. reflexivity.
  - exists (Ok []). intros dot. simpl. rewrite extend_nil. reflexivity.
Qed.

Lemma walk_emitting (dep : json) :
  forall parent, exists r, forall dot,
    add_nodes_edges dep parent dot = emitting r dot.
Proof.
  induction dep as [dep IH] using deps_of_ind. intros parent.
  destruct (name_of dep) as [name|e] eqn:Hname.
  2:{ exists (Err e). intros dot.
      rewrite add_nodes_edges_unfold, Hname. reflexivity. }
  destruct (version_of dep) as [version|e] eqn:Hver.
  2:{ exists (Err e). intros dot.
      rewrite add_nodes_edges_unfold, Hname, Hver. reflexivity. }
  destruct name as [| | | |name| |];
    try (exists (Err TypeError); intros dot;
         rewrite add_nodes_edges_unfold, Hname, Hver; reflexivity).
  destruct (guarded_edge_emitting parent name) as [rg Hg].
  destruct rg as [g|e].
  2:{ exists (Err e). intros dot.
      rewrite add_nodes_edges_unfold, Hname, Hver. cbn [bind node].
      rewrite Hg. reflexivity. }
  destruct (children dep) as [subs|e] eqn:Hsubs.
  2:{ exists (Err e). intros dot.
      rewrite add_nodes_edges_unfold, Hname, Hver. cbn [bind node].
      rewrite Hg. cbn [emitting bind]. rewrite Hsubs. reflexivity. }
  destruct (for_each_emitting
              (fun sub_dep => add_nodes_edges sub_dep (JStr name)) subs)
    as [rc Hrc].
  { intros c Hc. apply IH. unfold deps_of. rewrite Hsubs. exact Hc. }
  destruct rc as [n|e].
  - exists (Ok (SNode name (label_of name version) :: g ++ n)%list).
    intros dot. rewrite add_nodes_edges_unfold, Hname, Hver. cbn [bind node].
    rewrite Hg. cbn [emitting bind]. rewrite Hsubs. cbn [bind].
    rewrite Hrc. cbn [emitting]. f_equal.
    unfold extend, append. simpl. f_equal.
    rewrite <- !app_assoc. reflexivity.
  - exists (Err e). intros dot.
    rewrite add_nodes_edges_unfold, Hname, Hver. cbn [bind node].
    rewrite Hg. cbn [emitting bind]. rewrite Hsubs. cbn [bind].
    rewrite Hrc. reflexivity.
Qed.

Lemma walk_forest_emitting (items : list json) :
  exists r, forall dot,
    for_each (fun dependency => add_nodes_edges dependency JNull) items dot
    = emitting r dot.
Proof.
  apply for_each_emitting. intros c _. apply walk_emitting.
Qed.

(** ** Induction on a completed walk *)

Lemma for_each_shape (P : json -> json -> list stmt -> Prop)
  (parent : json) (subs : list json) :
  (forall c, In c subs ->
   forall dot dot', add_nodes_edges c parent dot = Ok dot' ->
   exists new, body dot' = (body dot ++ new)%list /\ P c parent new) ->
  forall dot dot',
    for_each (fun sub_dep => add_nodes_edges sub_dep parent) subs dot = Ok dot' ->
    exists news,
      body dot' = (body dot ++ List.concat news)%list /\
      Forall2 (fun c new => P c parent new) subs news.
Proof.
  induction subs as [|c rest IH]; intros Hsubs dot dot' Hloop.
  - injection Hloop as <-. exists []. simpl. rewrite app_nil_r.
    split; [reflexivity | constructor].
  - cbn [for_each] in Hloop.
    destruct (add_nodes_edges c parent dot) as [mid|e] eqn:Hc; [|discriminate].
    cbn [bind] in Hloop.
    destruct (Hsubs c (or_introl eq_refl) _ _ Hc) as [new [Hb1 Hnew]].
    destruct (IH (fun x Hx => Hsubs x (or_intror Hx)) _ _ Hloop)
      as [news [Hb2 Hnews]].
    exists (new :: news). split.
    + simpl. rewrite Hb2, Hb1, app_assoc. reflexivity.
    + constructor; assumption.
Qed.

(** A property of the statements of a walk holds of every completed walk
    when it passes from the walks of the children to the walk of the node. *)
Lemma walk_ok_ind (P : json -> json -> list stmt -> Prop) :
  (forall dep parent name version news,
     name_of dep = Ok (JStr name) ->
     version_of dep = Ok version ->
     children dep = Ok (deps_of dep) ->
     Forall2 (fun c new => P c (JStr name) new) (deps_of dep) news ->
     P dep parent
       (SNode name (label_of name version)
        :: parent_edge parent name ++ List.concat news)%list) ->
  forall dep parent dot dot',
    add_nodes_edges dep parent dot = Ok dot' ->
    exists new, body dot' = (body dot ++ new)%list /\ P dep parent new.
Proof.
  intros Hstep dep. induction dep as [dep IH] using deps_of_ind.
  intros parent dot dot' Hwalk.
  apply add_nodes_edges_ok in Hwalk
    as [name [version [dot1 [Hname [Hver [Hsubs [_ [Hb1 Hloop]]]]]]]].
  destruct (for_each_shape P (JStr name) (deps_of dep)
              (fun c Hc => IH c Hc (JStr name)) _ _ Hloop)
    as [news [Hb Hnews]].
  exists (SNode name (label_of name version)
          :: parent_edge parent name ++ List.concat news)%list.
  split.
  - rewrite Hb, Hb1, <- app_assoc. reflexivity.
  - apply Hstep; assumption.
Qed.

Lemma forest_ok_ind (P : json -> json -> list stmt -> Prop) :
  (forall dep parent name version news,
     name_of dep = Ok (JStr name) ->
     version_of dep = Ok version ->
     children dep = Ok (deps_of dep) ->
     Forall2 (fun c new => P c (JStr name) new) (deps_of dep) news ->
     P dep parent
       (SNode name (label_of name version)
        :: parent_edge parent name ++ List.concat news)%list) ->
  forall items dot,
    walk_forest items = Ok dot ->
    exists news,
      body dot = List.concat news /\
      Forall2 (fun c new => P c JNull new) items news.
Proof.
  intros Hstep items dot Hwalk. unfold walk_forest in Hwalk.
  apply (for_each_shape P JNull items
           (fun c _ => walk_ok_ind P Hstep c JNull)) in Hwalk.
  exact Hwalk.
Qed.

Lemma node_blocks_app (a b : list stmt) :
  node_blocks a -> node_blocks b -> node_blocks (a ++ b).
Proof.
  induction 1 as [|n l rest _ IH|n l t rest _ IH]; intros Hb; simpl.
  - exact Hb.
  - apply blocks_node. apply IH. exact Hb.
  - apply blocks_node_edge. apply IH. exact Hb.
Qed.

Lemma node_blocks_concat {A : Type} (items : list A) (news : list (list stmt)) :
  Forall2 (fun _ new => node_blocks new) items news ->
  node_blocks (List.concat news).
Proof.
  induction 1; simpl.
  - constructor.
  - apply node_blocks_app; assumption.
Qed.

Lemma walk_node_blocks :
  forall dep parent name version news,
    name_of dep = Ok (JStr name) ->
    version_of dep = Ok version ->
    children dep = Ok (deps_of dep) ->
    Forall2 (fun (c : json) new => node_blocks new) (deps_of dep) news ->
    node_blocks
      (SNode name (label_of name version)
       :: parent_edge parent name ++ List.concat news)%list.
Proof.
  intros dep parent name version news _ _ _ Hnews.
  apply node_blocks_concat in Hnews.
  destruct parent as [| | | |p| |]; simpl;
    try (apply blocks_node; exact Hnews).
  destruct (String.eqb p ""); simpl.
  - apply blocks_node. exact Hnews.
  - apply blocks_node_edge. exact Hnews.
Qed.

(** ** Which forests are walked to the end *)

Lemma walk_walkable_step :
  forall dep (parent : json) name version (news : list (list stmt)),
    name_of dep = Ok (JStr name) ->
    version_of dep = Ok version ->
    children dep = Ok (deps_of dep) ->
    Forall2 (fun c (_ : list stmt) =>
               forall p, In p (tree_nodes c) -> walkable p)
            (deps_of dep) news ->
    forall p, In p (tree_nodes dep) -> walkable p.
Proof.
  intros dep parent name version news Hname Hver Hsubs Hnews p Hp.
  rewrite tree_nodes_eq in Hp. destruct Hp as [<-|Hp].
  - exists name, version, (deps_of dep). repeat split; assumption.
  - apply in_flat_map in Hp as [c [Hc Hp]].
    destruct (Forall2_In_l _ _ _ Hnews c Hc) as [new [_ Hwalkable]].
    apply Hwalkable. exact Hp.
Qed.

(** ** Counting statements *)

Lemma edges_in_parent_edge (parent : json) (name : string) :
  List.length (edges_in (parent_edge parent name))
  = List.length (parent_edge parent name).
Proof.
  destruct parent; try reflexivity. simpl.
  destruct (String.eqb s ""); reflexivity.
Qed.

Lemma edges_in_concat (news : list (list stmt)) :
  List.length (edges_in (List.concat news))
  = list_sum (map (fun new => List.length (edges_in new)) news).
Proof.
  induction news as [|new rest IH]; simpl.
  - reflexivity.
  - rewrite edges_in_app, List.length_app, IH. reflexivity.
Qed.

Lemma edge_count_children (name : string) (subs : list json)
  (news : list (list stmt)) :
  name <> "" ->
  Forall2 (fun c new => edge_count c (JStr name) new) subs news ->
  (forall c, In c subs ->
   forall p, In p (tree_nodes c) -> deps_of p <> [] ->
             name_of p <> Ok (JStr "")) ->
  List.length (edges_in (List.concat news))
  = List.length (flat_map tree_nodes subs).
Proof.
  intros Hname. induction 1 as [|c new subs news Hc _ IH]; intros Hnon.
  - reflexivity.
  - simpl. rewrite edges_in_app, !List.length_app.
    rewrite IH by (intros x Hx; apply Hnon; right; exact Hx).
    destruct Hc as [cname [_ Hcount]].
    specialize (Hcount (Hnon c (or_introl eq_refl))).
    simpl in Hcount. apply String.eqb_neq in Hname. rewrite Hname in Hcount.
    simpl in Hcount. lia.
Qed.

Lemma edge_count_step :
  forall dep parent name version news,
    name_of dep = Ok (JStr name) ->
    version_of dep = Ok version ->
    children dep = Ok (deps_of dep) ->
    Forall2 (fun c new => edge_count c (JStr name) new) (deps_of dep) news ->
    edge_count dep parent
      (SNode name (label_of name version)
       :: parent_edge parent name ++ List.concat news)%list.
Proof.
  intros dep parent name version news Hname Hver _ Hnews.
  exists name. split; [exact Hname|]. intros Hnon.
  rewrite edges_in_node, edges_in_app, List.length_app, edges_in_parent_edge.
  rewrite tree_nodes_eq. cbn [List.length].
  assert (Hlen : List.length (edges_in (List.concat news))
                 = List.length (flat_map tree_nodes (deps_of dep))).
  { destruct news as [|new news'].
    - inversion Hnews as [Hd|]. reflexivity.
    - apply (edge_count_children name).
      + intros ->. apply (Hnon dep).
        * rewrite tree_nodes_eq. left. reflexivity.
        * intros Hnil. rewrite Hnil in Hnews. inversion Hnews.
        * exact Hname.
      + exact Hnews.
      + intros c Hc p Hp. apply Hnon. rewrite tree_nodes_eq. right.
        apply in_flat_map. exists c. split; assumption. }
  lia.
Qed.

Lemma edge_count_forest (items : list json) (news : list (list stmt)) :
  Forall2 (fun c new => edge_count c JNull new) items news ->
  (forall c, In c items ->
   forall p, In p (tree_nodes c) -> deps_of p <> [] ->
             name_of p <> Ok (JStr "")) ->
  List.length (edges_in (List.concat news)) + List.length items
  = List.length (flat_map tree_nodes items).
Proof.
  induction 1 as [|c new items news Hc _ IH]; intros Hnon.
  - reflexivity.
  - simpl. rewrite edges_in_app, !List.length_app.
    specialize (IH (fun x Hx => Hnon x (or_intror Hx))).
    destruct Hc as [cname [_ Hcount]].
    specialize (Hcount (Hnon c (or_introl eq_refl))).
    simpl in Hcount. lia.
Qed.

(** ** Further properties of the walk *)

(** X1.  What the walk of a tree does is the same on every graph: it raises
    the same exception, or it appends the same statements after those the
    graph has, and keeps the format. *)
Theorem walk_appends_regardless_of_graph (dep parent : json) :
  exists r : result (list stmt),
    forall dot,
      add_nodes_edges dep parent dot =
      match r with
      | Ok new => Ok {| format := format dot; body := (body dot ++ new)%list |}
      | Err e => Err e
      end.
Proof.
  destruct (walk_emitting dep parent) as [r Hr].
  exists r. intros dot. rewrite Hr. destruct r; reflexivity.
Qed.

(** X3.  Both ends of every edge of the rendered graph are nodes the graph
    has a node statement for. *)
Theorem edges_join_emitted_nodes (dependencies : json) (rc : render_call) :
  create_dependency_graph dependencies = Ok rc ->
  forall tail head,
    In (tail, head) (edges_in (body (rendered rc))) ->
    In tail (graph_nodes (rendered rc)) /\
    In head (graph_nodes (rendered rc)).
Proof.
  intros Hrun tail head Hin.
  apply rendered_graph in Hrun as [_ [Hnodes Hedges]].
  apply Hedges in Hin as [[p [c [Hp [Hc [Hpa Hcb]]]]] _].
  simpl in Hpa, Hcb.
  assert (Hemitted : forall dep name,
             In dep (forest_nodes dependencies) ->
             name_of dep = Ok (JStr name) ->
             In name (graph_nodes (rendered rc))).
  { intros dep name Hdep Hname.
    destruct (Forall2_In_l _ _ _ Hnodes dep Hdep)
      as [nl [Hnl [version [Hname' _]]]].
    unfold graph_nodes. apply nodup_In. apply in_map_iff.
    exists nl. split; [congruence | exact Hnl]. }
  split.
  - apply (Hemitted p); assumption.
  - apply (Hemitted c); [|assumption].
    eapply forest_nodes_closed; eassumption.
Qed.

(** X4.  The edges of the rendered graph are the pairs made of the name of
    a package of the forest, when that name is not empty, and the name of one
    of its direct sub-dependencies. *)
Theorem edges_are_parent_child_pairs (dependencies : json) (rc : render_call) :
  create_dependency_graph dependencies = Ok rc ->
  forall tail head,
    In (tail, head) (edges_in (body (rendered rc))) <->
    tail <> "" /\
    exists p c,
      In p (forest_nodes dependencies) /\ In c (deps_of p) /\
      name_of p = Ok (JStr tail) /\ name_of c = Ok (JStr head).
Proof.
  intros Hrun tail head.
  apply rendered_graph in Hrun as [_ [_ Hedges]].
  rewrite Hedges. unfold tree_edge. simpl. split; intros [H1 H2]; split;
    assumption.
Qed.

(** X5.  The rendered graph has one node statement per node of the forest;
    when no package with sub-dependencies has the empty name it has one
    edge statement per node that is not the root of a tree. *)
Theorem statement_counts (dependencies : json) (items : list json)
  (rc : render_call) :
  create_dependency_graph dependencies = Ok rc ->
  py_iter dependencies = Ok items ->
  List.length (nodes_in (body (rendered rc)))
  = List.length (forest_nodes dependencies) /\
  ((forall p, In p (forest_nodes dependencies) -> deps_of p <> [] ->
              name_of p <> Ok (JStr "")) ->
   List.length (edges_in (body (rendered rc))) + List.length items
   = List.length (forest_nodes dependencies)).
Proof.
  intros Hrun Hiter. split.
  - apply rendered_graph in Hrun as [_ [Hnodes _]].
    symmetry. eapply Forall2_length. exact Hnodes.
  - intros Hnamed.
    apply create_dependency_graph_ok in Hrun as [items' [Hiter' [Hwalk _]]].
    rewrite Hiter in Hiter'. injection Hiter' as <-.
    unfold forest_nodes in *. rewrite Hiter in *.
    destruct (forest_ok_ind edge_count edge_count_step items _ Hwalk)
      as [news [Hbody Hnews]].
    rewrite Hbody. apply edge_count_forest; [exact Hnews|].
    intros c Hc p Hp. apply Hnamed. apply in_flat_map. exists c.
    split; assumption.
Qed.

(** X6.  The body of the rendered graph is a sequence of node statements,
    each followed by at most one edge statement, and that edge points to
    the node just stated. *)
Theorem body_is_node_blocks (dependencies : json) (rc : render_call) :
  create_dependency_graph dependencies = Ok rc ->
  node_blocks (body (rendered rc)).
Proof.
  intros Hrun.
  apply create_dependency_graph_ok in Hrun as [items [_ [Hwalk _]]].
  destruct (forest_ok_ind (fun _ _ new => node_blocks new)
              walk_node_blocks items _ Hwalk) as [news [Hbody Hnews]].
  rewrite Hbody. eapply node_blocks_concat. exact Hnews.
Qed.

(** X7.  What is not a list at the top: a dict or a str that is not empty
    is iterated into strs and raises [AttributeError], an empty one is
    rendered as the empty graph, and [None], a bool or a number raises
    [TypeError]. *)
Theorem top_level_value_kinds :
  (forall entries, entries <> [] ->
     create_dependency_graph (JDict entries) = Err AttributeError) /\
  (forall s, s <> "" ->
     create_dependency_graph (JStr s) = Err AttributeError) /\
  create_dependency_graph (JDict [])
  = Ok (render (Digraph_new "png") "dependencies" false) /\
  create_dependency_graph (JStr "")
  = Ok (render (Digraph_new "png") "dependencies" false) /\
  create_dependency_graph JNull = Err TypeError /\
  (forall b, create_dependency_graph (JBool b) = Err TypeError) /\
  (forall z, create_dependency_graph (JInt z) = Err TypeError) /\
  (forall r, create_dependency_graph (JFloat r) = Err TypeError).
Proof.
  repeat split.
  - intros [|[k v] rest] Hne; [contradiction|]. reflexivity.
  - intros [|c rest] Hne; [contradiction|]. reflexivity.
Qed.

(** X8.  The trees of a list are walked one after the other into one graph:
    the graph of two lists put end to end has the statements of the first
    followed by those of the second, and the exception of the first list
    that raises. *)
Theorem forest_concatenation (items1 items2 : list json) :
  create_dependency_graph (JList (items1 ++ items2)) =
  match create_dependency_graph (JList items1) with
  | Err e => Err e
  | Ok rc1 =>
      match create_dependency_graph (JList items2) with
      | Err e => Err e
      | Ok rc2 =>
          Ok (render
                {| format := "png";
                   body := (body (rendered rc1) ++ body (rendered rc2))%list |}
                "dependencies" false)
      end
  end.
Proof.
  rewrite !create_dependency_graph_eq. cbn [py_iter bind].
  unfold walk_forest. rewrite for_each_app.
  destruct (walk_forest_emitting items1) as [r1 H1].
  destruct (walk_forest_emitting items2) as [r2 H2].
  rewrite (H1 (Digraph_new "png")).
  destruct r1 as [n1|e1]; cbn [emitting bind]; [|reflexivity].
  rewrite !H2.
  destruct r2 as [n2|e2]; cbn [emitting bind]; reflexivity.
Qed.

(** X10.  The checks on a node come in the order of the reads: a value
    that is no dict raises [AttributeError]; package data that are no dict
    raise [TypeError]; a missing name raises its [KeyError] whatever the
    version; a missing version raises its [KeyError] whatever the name is;
    and only then a name that is no str raises [TypeError]. *)
Theorem node_exception_order (dep parent : json) (dot : Digraph) :
  ((forall entries, dep <> JDict entries) ->
   add_nodes_edges dep parent dot = Err AttributeError) /\
  (forall data,
     package_data dep = Ok data -> (forall fields, data <> JDict fields) ->
     add_nodes_edges dep parent dot = Err TypeError) /\
  (forall fields,
     package_data dep = Ok (JDict fields) ->
     dict_lookup "package_name" fields = None ->
     add_nodes_edges dep parent dot = Err (KeyError "package_name")) /\
  (forall fields name,
     package_data dep = Ok (JDict fields) ->
     dict_lookup "package_name" fields = Some name ->
     dict_lookup "installed_version" fields = None ->
     add_nodes_edges dep parent dot = Err (KeyError "installed_version")) /\
  (forall fields name version,
     package_data dep = Ok (JDict fields) ->
     dict_lookup "package_name" fields = Some name ->
     dict_lookup "installed_version" fields = Some version ->
     (forall s, name <> JStr s) ->
     add_nodes_edges dep parent dot = Err TypeError).
Proof.
  rewrite add_nodes_edges_unfold. unfold name_of, version_of.
  repeat split.
  - intros Hdep. destruct dep; try reflexivity. exfalso. eapply Hdep.
    reflexivity.
  - intros data -> Hdata. cbn [bind].
    destruct data; try reflexivity. exfalso. eapply Hdata. reflexivity.
  - intros fields -> Hname. cbn [bind py_getitem]. rewrite Hname. reflexivity.
  - intros fields name -> Hname Hver. cbn [bind py_getitem].
    rewrite Hname, Hver. reflexivity.
  - intros fields name version -> Hname Hver Hstr. cbn [bind py_getitem].
    rewrite Hname, Hver. cbn [bind].
    destruct name; try reflexivity. exfalso. eapply Hstr. reflexivity.
Qed.

(** X11.  A node without the key [dependencies] is walked as the node with
    an empty list under it; with [None] under the key the walk of the node
    raises. *)
Theorem absent_and_null_dependencies :
  (forall entries parent dot,
     dict_lookup "dependencies" entries = None ->
     add_nodes_edges (JDict entries) parent dot
     = add_nodes_edges (JDict (("dependencies", JList []) :: entries))
         parent dot) /\
  (forall entries parent dot,
     dict_lookup "dependencies" entries = Some JNull ->
     exists e, add_nodes_edges (JDict entries) parent dot = Err e).
Proof.
  split.
  - intros entries parent dot Hdeps.
    rewrite !add_nodes_edges_eq. unfold add_nodes_edges_body.
    cbn [py_get bind]. unfold dict_get. cbn [dict_lookup String.eqb].
    simpl. rewrite Hdeps.
    destruct (dict_lookup "package" entries) as [data|]; reflexivity.
  - intros entries parent dot Hdeps.
    rewrite add_nodes_edges_unfold.
    destruct (name_of (JDict entries)) as [name|e]; [|eexists; reflexivity].
    destruct (version_of (JDict entries)) as [version|e];
      [|eexists; reflexivity].
    cbn [bind].
    destruct (node name _ dot) as [dot1|e]; [|eexists; reflexivity].
    cbn [bind].
    destruct (if py_truthy parent then edge parent name dot1 else Ok dot1)
      as [dot2|e]; [|eexists; reflexivity].
    cbn [bind]. unfold children. cbn [py_get bind]. unfold dict_get.
    rewrite Hdeps. eexists. reflexivity.
Qed.

(** ** The walk under the recursion limit *)

Lemma add_nodes_edges_body_unfold
  (self : json -> json -> Digraph -> result Digraph)
  (dep parent : json) (dot : Digraph) :
  add_nodes_edges_body self dep parent dot =
  (name <- name_of dep ;;
   version <- version_of dep ;;
   dot1 <- node name (py_format name ++ newline ++ py_format version) dot ;;
   dot2 <- (if py_truthy parent then edge parent name dot1 else Ok dot1) ;;
   subs <- children dep ;;
   for_each (fun sub_dep => self sub_dep name) subs dot2).
Proof.
  unfold add_nodes_edges_body, name_of, version_of, package_data, children.
  destruct dep; reflexivity.
Qed.

(** The body calls [self] on the children of the node and nowhere else. *)
Lemma add_nodes_edges_body_ext
  (self1 self2 : json -> json -> Digraph -> result Digraph)
  (dep parent : json) (dot : Digraph) :
  (forall c, In c (deps_of dep) -> forall p d, self1 c p d = self2 c p d) ->
  add_nodes_edges_body self1 dep parent dot
  = add_nodes_edges_body self2 dep parent dot.
Proof.
  intros Hself. rewrite !add_nodes_edges_body_unfold.
  destruct (name_of dep) as [name|e]; [|reflexivity].
  destruct (version_of dep) as [version|e]; [|reflexivity].
  cbn [bind].
  destruct (node name _ dot) as [dot1|e]; [|reflexivity].
  cbn [bind].
  destruct (if py_truthy parent then edge parent name dot1 else Ok dot1)
    as [dot2|e]; [|reflexivity].
  cbn [bind]. unfold deps_of in Hself.
  destruct (children dep) as [subs|e]; [|reflexivity].
  cbn [bind]. apply for_each_ext_in.
  intros c Hc d. apply Hself. exact Hc.
Qed.

Lemma for_each_cut_short {A S : Type} (f g : A -> S -> result S)
  (items : list A) :
  (forall x, In x items -> forall s, cut_short (f x s) (g x s)) ->
  forall s, cut_short (for_each f items s) (for_each g items s).
Proof.
  induction items as [|x rest IH]; intros Hfg s.
  - right. reflexivity.
  - cbn [for_each].
    destruct (Hfg x (or_introl eq_refl) s) as [Hcut|Hsame].
    + left. rewrite Hcut. reflexivity.
    + rewrite Hsame. destruct (g x s) as [s'|e]; cbn [bind].
      * apply IH. intros y Hy. apply Hfg. right. exact Hy.
      * right. reflexivity.
Qed.

Lemma add_nodes_edges_body_cut_short
  (self1 self2 : json -> json -> Digraph -> result Digraph)
  (dep parent : json) (dot : Digraph) :
  (forall c, In c (deps_of dep) ->
             forall p d, cut_short (self1 c p d) (self2 c p d)) ->
  cut_short (add_nodes_edges_body self1 dep parent dot)
            (add_nodes_edges_body self2 dep parent dot).
Proof.
  intros Hself. rewrite !add_nodes_edges_body_unfold.
  destruct (name_of dep) as [name|e]; [|right; reflexivity].
  destruct (version_of dep) as [version|e]; [|right; reflexivity].
  cbn [bind].
  destruct (node name _ dot) as [dot1|e]; [|right; reflexivity].
  cbn [bind].
  destruct (if py_truthy parent then edge parent name dot1 else Ok dot1)
    as [dot2|e]; [|right; reflexivity].
  cbn [bind]. unfold deps_of in Hself.
  destruct (children dep) as [subs|e]; [|right; reflexivity].
  cbn [bind]. apply for_each_cut_short.
  intros c Hc d. apply Hself. exact Hc.
Qed.

(** Under the limit the walk does what it does without one, unless it is
    cut short by [RecursionError]. *)
Lemma within_cut_short (frames : nat) :
  forall dep parent dot,
    cut_short (add_nodes_edges_within frames dep parent dot)
              (add_nodes_edges dep parent dot).
Proof.
  induction frames as [|frames IH]; intros dep parent dot.
  - left. reflexivity.
  - cbn [add_nodes_edges_within]. rewrite add_nodes_edges_eq.
    apply add_nodes_edges_body_cut_short. intros c _ p d. apply IH.
Qed.

Lemma list_max_strs (items : list json) :
  (forall x, In x items -> exists c, x = JStr c) ->
  list_max (map tree_height items) = match items with [] => 0 | _ => 1 end.
Proof.
  induction items as [|x rest IH]; intros Hstr.
  - reflexivity.
  - destruct (Hstr x (or_introl eq_refl)) as [c ->].
    cbn [map list_max fold_right tree_height].
    change (fold_right Nat.max 0 (map tree_height rest))
      with (list_max (map tree_height rest)).
    rewrite IH by (intros y Hy; apply Hstr; right; exact Hy).
    destruct rest; reflexivity.
Qed.

(** The walk of a node nests one call more than the walks of its
    children. *)
Lemma tree_height_eq (dep : json) :
  tree_height dep = S (list_max (map tree_height (deps_of dep))).
Proof.
  destruct dep; try reflexivity.
  cbn [tree_height]. f_equal.
  rewrite dict_case_lookup.
  unfold deps_of, children. cbn [py_get bind]. unfold dict_get.
  destruct (dict_lookup "dependencies" entries) as [deps|]; [|reflexivity].
  destruct deps; try reflexivity; cbn [py_iter bind].
  - rewrite list_max_strs; [reflexivity|].
    intros x Hx. eapply py_chars_not_dict. eassumption.
  - rewrite list_max_strs; [reflexivity|].
    intros x Hx. eapply py_keys_not_dict. eassumption.
Qed.

Lemma tree_height_child (dep c : json) :
  In c (deps_of dep) -> S (tree_height c) <= tree_height dep.
Proof.
  intros Hc. rewrite (tree_height_eq dep). apply le_n_S.
  assert (Hall : Forall (fun k => k <= list_max (map tree_height (deps_of dep)))
                        (map tree_height (deps_of dep))).
  { apply list_max_le. apply Nat.le_refl. }
  rewrite Forall_forall in Hall. apply Hall. apply in_map. exact Hc.
Qed.

(** With frames enough for the height of the tree the limit is not met. *)
Lemma within_enough (frames : nat) :
  forall dep parent dot,
    tree_height dep <= frames ->
    add_nodes_edges_within frames dep parent dot
    = add_nodes_edges dep parent dot.
Proof.
  induction frames as [|frames IH]; intros dep parent dot Hheight.
  - rewrite tree_height_eq in Hheight. lia.
  - cbn [add_nodes_edges_within]. rewrite add_nodes_edges_eq.
    apply add_nodes_edges_body_ext. intros c Hc p d. apply IH.
    apply tree_height_child in Hc. lia.
Qed.

Lemma for_each_ok_inv {A S : Type} (f : A -> S -> result S) (items : list A) :
  forall s s',
    for_each f items s = Ok s' ->
    forall x, In x items -> exists s1 s2, f x s1 = Ok s2.
Proof.
  induction items as [|y rest IH]; intros s s' Hloop x Hx.
  - contradiction.
  - cbn [for_each] in Hloop.
    destruct (f y s) as [s1|e] eqn:Hy; [|discriminate].
    cbn [bind] in Hloop. destruct Hx as [<-|Hx].
    + exists s, s1. exact Hy.
    + eapply IH; eassumption.
Qed.

(** A walk that returns under the limit has not nested deeper than it. *)
Lemma within_height (frames : nat) :
  forall dep parent dot dot',
    add_nodes_edges_within frames dep parent dot = Ok dot' ->
    tree_height dep <= frames.
Proof.
  induction frames as [|frames IH]; intros dep parent dot dot' Hwalk.
  - discriminate.
  - cbn [add_nodes_edges_within] in Hwalk.
    rewrite add_nodes_edges_body_unfold in Hwalk.
    destruct (name_of dep) as [name|e]; [|discriminate].
    destruct (version_of dep) as [version|e]; [|discriminate].
    cbn [bind] in Hwalk.
    destruct (node name _ dot) as [dot1|e]; [|discriminate].
    cbn [bind] in Hwalk.
    destruct (if py_truthy parent then edge parent name dot1 else Ok dot1)
      as [dot2|e]; [|discriminate].
    cbn [bind] in Hwalk.
    rewrite tree_height_eq. apply le_n_S. apply list_max_le.
    apply Forall_forall. intros k Hk.
    apply in_map_iff in Hk as [c [<- Hc]].
    unfold deps_of in Hc.
    destruct (children dep) as [subs|e]; [|contradiction].
    cbn [bind] in Hwalk.
    destruct (for_each_ok_inv _ _ _ _ Hwalk c Hc) as [s1 [s2 Hchild]].
    eapply IH. exact Hchild.
Qed.

Lemma walk_forest_within_cut_short (frames : nat) (items : list json) :
  cut_short (walk_forest_within frames items) (walk_forest items).
Proof.
  unfold walk_forest_within, walk_forest. apply for_each_cut_short.
  intros c _ s. apply within_cut_short.
Qed.

Lemma walk_forest_within_enough (frames : nat) (items : list json) :
  list_max (map tree_height items) <= frames ->
  walk_forest_within frames items = walk_forest items.
Proof.
  intros Hheight. unfold walk_forest_within, walk_forest.
  apply for_each_ext_in. intros c Hc s. apply within_enough.
  apply list_max_le in Hheight. rewrite Forall_forall in Hheight.
  apply Hheight. apply in_map. exact Hc.
Qed.

Lemma walk_forest_within_height (frames : nat) (items : list json)
  (dot : Digraph) :
  walk_forest_within frames items = Ok dot ->
  list_max (map tree_height items) <= frames.
Proof.
  intros Hwalk. unfold walk_forest_within in Hwalk.
  apply list_max_le. apply Forall_forall. intros k Hk.
  apply in_map_iff in Hk as [c [<- Hc]].
  destruct (for_each_ok_inv _ _ _ _ Hwalk c Hc) as [s1 [s2 Hchild]].
  eapply within_height. exact Hchild.
Qed.

(** ** The properties under the limits *)

(** C6, as amended.  Take a list whose nodes are all dictionaries with
    package data, the value under [package] if the node has that key and
    the node itself otherwise, that are a dictionary with a str under
    [package_name] and a str under [installed_version], and with
    [dependencies], when present, a list of such nodes.  If the list is
    nested no deeper than the recursion limit allows, the whole forest is
    walked and [render] is called on its graph, so that the function raises
    only what [render] raises.  If it is nested deeper, the function raises
    [RecursionError] and calls no [render].  Nothing else is checked: the
    walk of a node depends on the node through the four keys only. *)
Theorem well_formed_forest_reaches_render :
  (forall frames items,
     forallb well_formed items = true ->
     (forall dep, In dep (forest_nodes (JList items)) ->
                  exists v, version_of dep = Ok (JStr v)) ->
     forest_height (JList items) <= frames ->
     exists dot,
       create_dependency_graph_within frames (JList items)
       = ([render dot "dependencies" false],
          _ <- dot_render dot "dependencies" false ;; Ok tt)) /\
  (forall frames items,
     forallb well_formed items = true ->
     (forall dep, In dep (forest_nodes (JList items)) ->
                  exists v, version_of dep = Ok (JStr v)) ->
     frames < forest_height (JList items) ->
     create_dependency_graph_within frames (JList items)
     = ([], Err RecursionError)) /\
  (forall frames entries1 entries2 parent dot,
     (forall key,
        In key ["package"; "package_name"; "installed_version"; "dependencies"] ->
        dict_lookup key entries1 = dict_lookup key entries2) ->
     add_nodes_edges_within frames (JDict entries1) parent dot
     = add_nodes_edges_within frames (JDict entries2) parent dot).
Proof.
  split; [|split].
  - intros frames items Hall _ Hheight.
    unfold forest_height in Hheight. cbn [py_iter] in Hheight.
    unfold create_dependency_graph_within. cbn [py_iter bind].
    rewrite (walk_forest_within_enough _ _ Hheight).
    destruct (walk_forest_well_formed items Hall) as [dot ->].
    exists dot. reflexivity.
  - intros frames items Hall _ Hheight.
    unfold forest_height in Hheight. cbn [py_iter] in Hheight.
    unfold create_dependency_graph_within. cbn [py_iter bind].
    destruct (walk_forest_within_cut_short frames items) as [->|Hsame];
      [reflexivity|].
    destruct (walk_forest_well_formed items Hall) as [dot Hdot].
    rewrite Hdot in Hsame. apply walk_forest_within_height in Hsame. lia.
  - intros frames entries1 entries2 parent dot Hkeys.
    destruct frames as [|frames]; [reflexivity|].
    assert (Hpkg := Hkeys "package" (or_introl eq_refl)).
    assert (Hname := Hkeys "package_name" (or_intror (or_introl eq_refl))).
    assert (Hver := Hkeys "installed_version"
                      (or_intror (or_intror (or_introl eq_refl)))).
    assert (Hdeps := Hkeys "dependencies"
                       (or_intror (or_intror (or_intror (or_introl eq_refl))))).
    cbn [add_nodes_edges_within]. unfold add_nodes_edges_body.
    cbn [py_get bind]. unfold dict_get. rewrite Hpkg, Hdeps.
    destruct (dict_lookup "package" entries2) as [data|]; [reflexivity|].
    unfold py_getitem. rewrite Hname, Hver. reflexivity.
Qed.

(** X2.  [render] is called only after the whole forest has been walked:
    then the value could be iterated, every node of its forest is a
    dictionary whose package data give a str name and a version and whose
    dependencies could be iterated, and the forest is nested no deeper than
    the recursion limit allows. *)
Theorem render_reached_only_if_walkable
  (frames : nat) (dependencies : json) (dot : Digraph) :
  fst (create_dependency_graph_within frames dependencies)
  = [render dot "dependencies" false] ->
  (exists items, py_iter dependencies = Ok items) /\
  (forall dep, In dep (forest_nodes dependencies) -> walkable dep) /\
  forest_height dependencies <= frames.
Proof.
  unfold create_dependency_graph_within, forest_nodes, forest_height.
  destruct (py_iter dependencies) as [items|e]; cbn [bind];
    [|discriminate].
  destruct (walk_forest_within frames items) as [dot'|e] eqn:Hwithin;
    cbn [fst]; [|discriminate].
  intros _. split; [exists items; reflexivity|]. split.
  - destruct (walk_forest_within_cut_short frames items) as [Hcut|Hsame];
      [rewrite Hcut in Hwithin; discriminate|].
    rewrite Hwithin in Hsame. symmetry in Hsame.
    intros dep Hdep. apply in_flat_map in Hdep as [c [Hc Hdep]].
    destruct (forest_ok_ind
                (fun d _ _ => forall p, In p (tree_nodes d) -> walkable p)
                walk_walkable_step items _ Hsame) as [news [_ Hnews]].
    destruct (Forall2_In_l _ _ _ Hnews c Hc) as [new [_ Hwalkable]].
    apply Hwalkable. exact Hdep.
  - eapply walk_forest_within_height. exact Hwithin.
Qed.

End Script.

(** ** The properties at the sample forests *)

(** C2 at [sample_forest]. *)
Lemma emitted_node_carries_name_and_version_sample :
  exists rc,
    create_dependency_graph str_of_scalar sample_forest = Ok rc /\
    Forall2
      (fun dep nl =>
         exists version,
           name_of dep = Ok (JStr (fst nl)) /\
           version_of dep = Ok version /\
           snd nl = fst nl ++ newline ++ py_format str_of_scalar version /\
           forall v, version = JStr v -> snd nl = fst nl ++ newline ++ v)
      (forest_nodes sample_forest) (nodes_in (body (rendered rc))).
Proof.
  eexists. split; [reflexivity|].
  apply (emitted_node_carries_name_and_version str_of_scalar sample_forest).
  reflexivity.
Defined.

(** C4 at a tool that cannot be started, at a tool that prints no JSON, and
    at [keyless_forest]. *)
Lemma failures_propagate_sample :
  snd (get_pipdeptree_output
         (fun _ _ => Err (Raised "FileNotFoundError"))
         (fun _ => Ok JNull))
  = Err (Raised "FileNotFoundError") /\
  snd (get_pipdeptree_output
         (fun argv _ => Ok (mkCompleted argv 1 "" "No module named pip"))
         (fun _ => Err (Raised "JSONDecodeError")))
  = Err (Raised "JSONDecodeError") /\
  exists e, create_dependency_graph str_of_scalar keyless_forest = Err e.
Proof.
  split; [|split].
  - apply (failures_propagate str_of_scalar
             (fun _ _ => Err (Raised "FileNotFoundError"))
             (fun _ => Ok JNull)).
    reflexivity.
  - apply (proj1 (proj2 (failures_propagate str_of_scalar
             (fun argv _ => Ok (mkCompleted argv 1 "" "No module named pip"))
             (fun _ => Err (Raised "JSONDecodeError"))))
             (mkCompleted ["pipdeptree"; "--json"] 1 "" "No module named pip")).
    + reflexivity.
    + reflexivity.
  - apply (proj2 (proj2 (failures_propagate str_of_scalar
             (fun _ _ => Err (Raised "FileNotFoundError"))
             (fun _ => Ok JNull)))
             keyless_forest (JDict []) []).
    + left. reflexivity.
    + reflexivity.
    + left. reflexivity.
Defined.

(** The claim C4 as worded fails at [nested_forest]: its node has neither
    key, the package data have both, and the graph is rendered. *)
Lemma nested_node_without_keys_is_rendered :
  forest_nodes nested_forest = [JDict [("package", package "a" "1")]] /\
  dict_lookup "package_name" [("package", package "a" "1")] = None /\
  dict_lookup "installed_version" [("package", package "a" "1")] = None /\
  create_dependency_graph str_of_scalar nested_forest
  = Ok (render (mkDigraph "png" [SNode "a" ("a" ++ newline ++ "1")])
               "dependencies" false).
Proof. repeat split. Qed.

(** The claim C5 as worded fails at [keyless_forest]: the walk raises
    [KeyError] and nothing is rendered. *)
Lemma keyless_forest_is_not_rendered :
  create_dependency_graph str_of_scalar keyless_forest
  = Err (KeyError "package_name").
Proof. reflexivity. Qed.

(** The claim C6 as worded fails at [shadowed_forest]: its node carries the
    two keys, and the walk raises [KeyError] on the empty [package]. *)
Lemma carried_keys_do_not_suffice :
  forallb carries_keys
    [JDict [("package", JDict []);
            ("package_name", JStr "a");
            ("installed_version", JStr "1")]] = true /\
  create_dependency_graph str_of_scalar shadowed_forest
  = Err (KeyError "package_name").
Proof. split; reflexivity. Qed.

(** C7 at the first tree of [sample_forest]. *)
Lemma walk_well_founded_sample :
  exists new,
    body (mkDigraph "png" [SNode "flask" ("flask" ++ newline ++ "3.0.0");
                            SNode "click" ("click" ++ newline ++ "8.1.7");
                            SEdge "flask" "click"])
    = (body (Digraph_new "png") ++ new)%list /\
    Forall2 (node_for str_of_scalar)
      (tree_nodes (JDict [("package", package "flask" "3.0.0");
                          ("dependencies", JList [package "click" "8.1.7"])]))
      (nodes_in new).
Proof.
  apply (proj2 (proj2 (proj2 (walk_well_founded str_of_scalar)))
           (JDict [("package", package "flask" "3.0.0");
                   ("dependencies", JList [package "click" "8.1.7"])])
           JNull (Digraph_new "png")).
  reflexivity.
Defined.

(** C8 at [sample_forest], where [click] has two versions. *)
Lemma node_identity_is_package_name_sample :
  exists rc,
    create_dependency_graph str_of_scalar sample_forest = Ok rc /\
    map fst (nodes_in (body (rendered rc))) = ["flask"; "click"; "click"] /\
    count_occ string_dec (graph_nodes (rendered rc)) "click" = 1.
Proof.
  eexists. split; [reflexivity|]. split; [reflexivity|].
  apply (proj2 (node_identity_is_package_name str_of_scalar sample_forest _
                  eq_refl)
           (JDict [("package", package "click" "8.1.8");
                   ("dependencies", JList [])])).
  - right. right. left. reflexivity.
  - reflexivity.
Defined.

(** C9 at [empty_name_forest]. *)
Lemma empty_name_drops_edges_keeps_nodes_sample :
  exists rc,
    create_dependency_graph str_of_scalar empty_name_forest = Ok rc /\
    ~ In ("", "b") (edges_in (body (rendered rc))) /\
    exists nl,
      In nl (nodes_in (body (rendered rc))) /\
      node_for str_of_scalar
        (JDict [("package_name", JStr "b"); ("installed_version", JStr "2")])
        nl.
Proof.
  eexists. split; [reflexivity|].
  pose proof (empty_name_drops_edges_keeps_nodes str_of_scalar
                empty_name_forest _ eq_refl) as [Hedges Hnodes].
  split; [apply Hedges|].
  apply (Hnodes
           (JDict [("package_name", JStr "");
                   ("installed_version", JStr "1");
                   ("dependencies",
                    JList [JDict [("package_name", JStr "b");
                                  ("installed_version", JStr "2")]])])).
  - left. reflexivity.
  - reflexivity.
  - left. reflexivity.
Defined.

(** C10 at the two shapes of one package. *)
Lemma two_shapes_walked_alike_sample :
  add_nodes_edges str_of_scalar
    (JDict [("package", package "flask" "3.0.0");
            ("dependencies", JList [package "click" "8.1.7"])])
    JNull (Digraph_new "png")
  = add_nodes_edges str_of_scalar
      (JDict [("package_name", JStr "flask");
              ("installed_version", JStr "3.0.0");
              ("dependencies", JList [package "click" "8.1.7"])])
      JNull (Digraph_new "png").
Proof.
  apply (proj2 (proj2 (two_shapes_walked_alike str_of_scalar))
           _ _ [("key", JStr "flask"); ("package_name", JStr "flask");
                ("installed_version", JStr "3.0.0")]);
    reflexivity.
Defined.

(** ** Further properties of the tool call *)

(** X12.  Of the process that ran, only the stdout is read: two runs that
    print the same give the same result, whatever their exit status, and
    that result is what [json.loads] makes of the stdout. *)
Theorem exit_status_is_ignored
  (run1 run2 : list string -> bool -> result CompletedProcess)
  (loads : string -> result json) (completed1 completed2 : CompletedProcess) :
  run1 ["pipdeptree"; "--json"] true = Ok completed1 ->
  run2 ["pipdeptree"; "--json"] true = Ok completed2 ->
  stdout completed1 = stdout completed2 ->
  get_pipdeptree_output run1 loads = get_pipdeptree_output run2 loads /\
  snd (get_pipdeptree_output run1 loads) = loads (stdout completed1).
Proof.
  intros H1 H2 Hout. unfold get_pipdeptree_output. cbn [snd].
  rewrite H1, H2. cbn [bind]. rewrite Hout. split; reflexivity.
Qed.

(** ** The further properties at the sample forests *)

(** A tool that prints an empty list and fails. *)
Lemma exit_status_is_ignored_sample :
  get_pipdeptree_output
    (fun argv _ => Ok (mkCompleted argv 0 "[]" ""))
    (fun _ => Ok (JList []))
  = get_pipdeptree_output
      (fun argv _ => Ok (mkCompleted argv 1 "[]" "conflicting dependencies"))
      (fun _ => Ok (JList [])) /\
  snd (get_pipdeptree_output
         (fun argv _ => Ok (mkCompleted argv 0 "[]" ""))
         (fun _ => Ok (JList [])))
  = Ok (JList []).
Proof.
  apply (exit_status_is_ignored
           (fun argv _ => Ok (mkCompleted argv 0 "[]" ""))
           (fun argv _ => Ok (mkCompleted argv 1 "[]" "conflicting dependencies"))
           (fun _ => Ok (JList []))
           (mkCompleted ["pipdeptree"; "--json"] 0 "[]" "")
           (mkCompleted ["pipdeptree"; "--json"] 1 "[]"
                        "conflicting dependencies"));
    reflexivity.
Defined.

Lemma edges_join_emitted_nodes_sample :
  exists rc,
    create_dependency_graph str_of_scalar sample_forest = Ok rc /\
    In "flask" (graph_nodes (rendered rc)) /\
    In "click" (graph_nodes (rendered rc)).
Proof.
  eexists. split; [reflexivity|].
  apply (edges_join_emitted_nodes str_of_scalar sample_forest _ eq_refl).
  simpl. left. reflexivity.
Defined.

Lemma edges_are_parent_child_pairs_sample :
  exists rc,
    create_dependency_graph str_of_scalar sample_forest = Ok rc /\
    "flask" <> "" /\
    exists p c,
      In p (forest_nodes sample_forest) /\ In c (deps_of p) /\
      name_of p = Ok (JStr "flask") /\ name_of c = Ok (JStr "click").
Proof.
  eexists. split; [reflexivity|].
  apply (proj1 (edges_are_parent_child_pairs str_of_scalar sample_forest _
                  eq_refl "flask" "click")).
  simpl. left. reflexivity.
Defined.

Lemma statement_counts_sample :
  exists rc,
    create_dependency_graph str_of_scalar sample_forest = Ok rc /\
    List.length (nodes_in (body (rendered rc))) = 3 /\
    List.length (edges_in (body (rendered rc))) + 2 = 3.
Proof.
  eexists. split; [reflexivity|].
  destruct (statement_counts str_of_scalar sample_forest _ _ eq_refl eq_refl)
    as [Hnodes Hedges].
  split; [exact Hnodes|].
  apply Hedges.
  intros p [<-|[<-|[<-|[]]]] _; discriminate.
Defined.

Lemma body_is_node_blocks_sample :
  node_blocks
    [SNode "flask" ("flask" ++ newline ++ "3.0.0");
     SNode "click" ("click" ++ newline ++ "8.1.7");
     SEdge "flask" "click";
     SNode "click" ("click" ++ newline ++ "8.1.8")].
Proof.
  apply (body_is_node_blocks str_of_scalar sample_forest
           (render
              (mkDigraph "png"
                 [SNode "flask" ("flask" ++ newline ++ "3.0.0");
                  SNode "click" ("click" ++ newline ++ "8.1.7");
                  SEdge "flask" "click";
                  SNode "click" ("click" ++ newline ++ "8.1.8")])
              "dependencies" false)).
  reflexivity.
Defined.

Lemma top_level_value_kinds_sample :
  create_dependency_graph str_of_scalar
    (JDict [("error", JStr "no packages")]) = Err AttributeError /\
  create_dependency_graph str_of_scalar (JStr "[]") = Err AttributeError.
Proof.
  split.
  - apply (proj1 (top_level_value_kinds str_of_scalar)). discriminate.
  - apply (proj1 (proj2 (top_level_value_kinds str_of_scalar))). discriminate.
Defined.

Lemma node_exception_order_sample :
  add_nodes_edges str_of_scalar (JList []) JNull (Digraph_new "png")
  = Err AttributeError /\
  add_nodes_edges str_of_scalar (JDict [("package", JNull)]) JNull
    (Digraph_new "png")
  = Err TypeError /\
  add_nodes_edges str_of_scalar (JDict []) JNull (Digraph_new "png")
  = Err (KeyError "package_name") /\
  add_nodes_edges str_of_scalar (JDict [("package_name", JInt 3)]) JNull
    (Digraph_new "png")
  = Err (KeyError "installed_version") /\
  add_nodes_edges str_of_scalar
    (JDict [("package_name", JInt 3); ("installed_version", JStr "1")]) JNull
    (Digraph_new "png")
  = Err TypeError.
Proof.
  split; [|split; [|split; [|split]]].
  - apply (node_exception_order str_of_scalar). discriminate.
  - apply (proj1 (proj2 (node_exception_order str_of_scalar _ _ _)) JNull).
    + reflexivity.
    + discriminate.
  - apply (proj1 (proj2 (proj2 (node_exception_order str_of_scalar _ _ _)))
             []); reflexivity.
  - apply (proj1 (proj2 (proj2 (proj2
             (node_exception_order str_of_scalar _ _ _))))
             [("package_name", JInt 3)] (JInt 3)); reflexivity.
  - apply (proj2 (proj2 (proj2 (proj2
             (node_exception_order str_of_scalar _ _ _))))
             [("package_name", JInt 3); ("installed_version", JStr "1")]
             (JInt 3) (JStr "1")); try reflexivity.
    discriminate.
Defined.

Lemma absent_and_null_dependencies_sample :
  add_nodes_edges str_of_scalar (package "click" "8.1.7") (JStr "flask")
    (Digraph_new "png")
  = add_nodes_edges str_of_scalar
      (JDict [("dependencies", JList []); ("key", JStr "click");
              ("package_name", JStr "click");
              ("installed_version", JStr "8.1.7")])
      (JStr "flask") (Digraph_new "png") /\
  exists e,
    add_nodes_edges str_of_scalar
      (JDict [("package_name", JStr "click");
              ("installed_version", JStr "8.1.7");
              ("dependencies", JNull)])
      (JStr "flask") (Digraph_new "png")
    = Err e.
Proof.
  split.
  - apply (proj1 (absent_and_null_dependencies str_of_scalar)). reflexivity.
  - apply (proj2 (absent_and_null_dependencies str_of_scalar)). reflexivity.
Defined.

(** C6 at the first tree of [sample_forest] under a limit of 1000 and of 1
    frames, and at a dependency with and without the keys the walk does
    not read. *)
Lemma well_formed_forest_reaches_render_sample :
  (exists dot,
     create_dependency_graph_within str_of_scalar
       (fun _ file _ => Ok (file ++ ".png")) 1000
       (JList [JDict [("package", package "flask" "3.0.0");
                      ("dependencies", JList [package "click" "8.1.7"])]])
     = ([render dot "dependencies" false],
        _ <- Ok ("dependencies" ++ ".png") ;; Ok tt)) /\
  create_dependency_graph_within str_of_scalar
    (fun _ file _ => Ok (file ++ ".png")) 1
    (JList [JDict [("package", package "flask" "3.0.0");
                   ("dependencies", JList [package "click" "8.1.7"])]])
  = ([], Err RecursionError) /\
  add_nodes_edges_within str_of_scalar 1000
    (JDict [("key", JStr "click"); ("package_name", JStr "click");
            ("installed_version", JStr "8.1.7");
            ("required_version", JStr ">=8.1.3")])
    (JStr "flask") (Digraph_new "png")
  = add_nodes_edges_within str_of_scalar 1000
      (JDict [("package_name", JStr "click");
              ("installed_version", JStr "8.1.7")])
      (JStr "flask") (Digraph_new "png").
Proof.
  split; [|split].
  - apply (proj1 (well_formed_forest_reaches_render str_of_scalar
                    (fun _ file _ => Ok (file ++ ".png"))) 1000).
    + reflexivity.
    + intros dep [<-|[<-|[]]]; eexists; reflexivity.
    + apply Nat.leb_le. reflexivity.
  - apply (proj1 (proj2 (well_formed_forest_reaches_render str_of_scalar
                    (fun _ file _ => Ok (file ++ ".png")))) 1).
    + reflexivity.
    + intros dep [<-|[<-|[]]]; eexists; reflexivity.
    + apply Nat.ltb_lt. reflexivity.
  - apply (proj2 (proj2 (well_formed_forest_reaches_render str_of_scalar
                    (fun _ file _ => Ok (file ++ ".png"))))).
    intros key [<-|[<-|[<-|[<-|[]]]]]; reflexivity.
Defined.

(** X2 at [sample_forest] under a limit of 1000 frames. *)
Lemma render_reached_only_if_walkable_sample :
  (exists items, py_iter sample_forest = Ok items) /\
  (forall dep, In dep (forest_nodes sample_forest) -> walkable dep) /\
  forest_height sample_forest <= 1000.
Proof.
  apply (render_reached_only_if_walkable str_of_scalar
           (fun _ file _ => Ok (file ++ ".png")) 1000 sample_forest
           (mkDigraph "png"
              [SNode "flask" ("flask" ++ newline ++ "3.0.0");
               SNode "click" ("click" ++ newline ++ "8.1.7");
               SEdge "flask" "click";
               SNode "click" ("click" ++ newline ++ "8.1.8")])).
  reflexivity.
Defined.
